(** * kagglecore: the abstract competition pipeline of [abstract.py]

    A shallow embedding of the module's own logic.  Calls into third-party
    code (pandas, numpy, scikit-learn, the competition API, the experiment
    tracker, the notifier) are either modelled after the library's documented
    behaviour, or taken as parameters of the section that uses them. *)

From Stdlib Require Import ZArith Reals Lra Lia.
From stdpp Require Import base list strings gmap pretty.

Local Open Scope Z_scope.
Local Open Scope nat_scope.

(** ** Python exceptions and fallible results *)

(** The exception classes that occur in the module.  [OSError] and
    [ImportError] stand for the class together with its subclasses, which is
    what an [except] clause catches. *)
Inductive exn : Set :=
  | NotImplementedError
  | ValueError
  | TypeError
  | KeyError
  | IndexError
  | AttributeError
  | UnboundLocalError
  | ImportError
  | OSError.

#[global] Instance exn_eq_dec : EqDecision exn.
Proof. solve_decision. Defined.

(** The outcome of evaluating a Python expression: a value, or a raised
    exception. *)
Inductive Result (A : Type) : Type :=
  | Ok (a : A)
  | Raise (e : exn).
Arguments Ok {A} a.
Arguments Raise {A} e.

#[global] Instance Result_ret : MRet Result := λ A a, Ok a.
#[global] Instance Result_bind : MBind Result :=
  λ A B f m, match m with Ok a => f a | Raise e => Raise e end.
#[global] Instance Result_fmap : FMap Result :=
  λ A B f m, match m with Ok a => Ok (f a) | Raise e => Raise e end.

(** [for x in l: ...] over a fallible body, collecting the produced values. *)
Fixpoint for_each {A B} (body : A → Result B) (l : list A) : Result (list B) :=
  match l with
  | [] => Ok []
  | x :: l' => y ← body x; ys ← for_each body l'; Ok (y :: ys)
  end.

(** ** Stateful, fallible computations

    [Py S A] is a computation over a state [S] that returns an [A] or raises.
    The state is kept when an exception is raised, so that what happened
    before the exception can still be observed. *)
Definition Py (S A : Type) : Type := S → S * Result A.

#[global] Instance Py_ret {S} : MRet (Py S) := λ A a s, (s, Ok a).
#[global] Instance Py_bind {S} : MBind (Py S) :=
  λ A B f m s, match m s with
               | (s', Ok a) => f a s'
               | (s', Raise e) => (s', Raise e)
               end.

Definition raise {S A} (e : exn) : Py S A := λ s, (s, Raise e).

(** [try: body except <cls>: handler], where [catches] decides
    [isinstance(e, cls)]. *)
Definition try_except {S A} (body : Py S A) (catches : exn → bool)
    (handler : Py S A) : Py S A :=
  λ s, match body s with
       | (s', Ok a) => (s', Ok a)
       | (s', Raise e) => if catches e then handler s' else (s', Raise e)
       end.

Definition is_OSError (e : exn) : bool :=
  match e with OSError => true | _ => false end.

Definition is_ImportError (e : exn) : bool :=
  match e with ImportError => true | _ => false end.

Definition lift {S A} (r : Result A) : Py S A := λ s, (s, r).

(** ** Tabular data (pandas) *)

(** Boolean-mask selection [l[mask]]: the entries whose mask bit is set. *)
Fixpoint select {A} (l : list A) (mask : list bool) : list A :=
  match l, mask with
  | x :: l', b :: mask' =>
      if b then x :: select l' mask' else select l' mask'
  | _, _ => []
  end.

Section frames.
Context {V : Type} `{EqDecision V}.

(** A [pd.DataFrame]: column labels and the rows, each row holding one cell
    per column.  Labels need not be distinct, as in pandas. *)
Record DataFrame : Type := mkDataFrame {
  columns : list string;
  rows : list (list V)
}.

(** [len(df)] *)
Definition len (df : DataFrame) : nat := length (rows df).

(** [df.iloc[index]] for an array of row positions; a position out of
    range raises IndexError. *)
Definition iloc (df : DataFrame) (index : list nat) : Result DataFrame :=
  picked ← for_each (λ i, match rows df !! i with
                          | Some r => Ok r
                          | None => Raise IndexError
                          end) index;
  Ok (mkDataFrame (columns df) picked).

(** [col in df] *)
Definition contains (df : DataFrame) (col : string) : bool :=
  bool_decide (col ∈ columns df).

(** The positions at which label [col] occurs. *)
Definition positions_of (col : string) (cols : list string) : list nat :=
  filter (λ j, cols !! j = Some col) (seq 0 (length cols)).

(** [df[col]] followed by a Series method: no such label raises KeyError;
    a label that occurs more than once selects a DataFrame, on which the
    Series method is missing (AttributeError).  A row without a cell at the
    column's position cannot occur in pandas and is reported as
    IndexError. *)
Definition getitem (df : DataFrame) (col : string) : Result (list V) :=
  match positions_of col (columns df) with
  | [] => Raise KeyError
  | [j] => for_each (λ r : list V, match r !! j with
                                   | Some v => Ok v
                                   | None => Raise IndexError
                                   end) (rows df)
  | _ => Raise AttributeError
  end.

(** [Series.unique()]: the distinct values in order of first appearance. *)
Fixpoint unique_from (seen : list V) (values : list V) : list V :=
  match values with
  | [] => []
  | v :: rest =>
      if decide (v ∈ seen) then unique_from seen rest
      else v :: unique_from (v :: seen) rest
  end.
Definition unique (values : list V) : list V := unique_from [] values.

(** [Series.isin(values)]: a boolean mask. *)
Definition isin (series : list V) (values : list V) : list bool :=
  map (λ v, bool_decide (v ∈ values)) series.

(** [df[mask]] for a boolean mask with one entry per row. *)
Definition getitem_mask (df : DataFrame) (mask : list bool) : DataFrame :=
  mkDataFrame (columns df) (select (rows df) mask).

(** [arr[index]] for a numpy array and an array of positions. *)
Definition take_positions (arr : list V) (index : list nat) : Result (list V) :=
  for_each (λ i, match arr !! i with
                 | Some v => Ok v
                 | None => Raise IndexError
                 end) index.

(** Dropping the cells at the given positions of a row. *)
Definition drop_cells (js : list nat) (r : list V) : list V :=
  concat (imap (λ j v, if bool_decide (j ∈ js) then [] else [v]) r).

(** [df.drop(columns=col)]: every column labelled [col] goes; an absent
    label raises KeyError. *)
Definition drop_columns (df : DataFrame) (col : string) : Result DataFrame :=
  match positions_of col (columns df) with
  | [] => Raise KeyError
  | js => Ok (mkDataFrame (filter (λ c, c ≠ col) (columns df))
                          (map (drop_cells js) (rows df)))
  end.

(** [df.rename(columns={old: new})]: labels equal to [old] become [new];
    nothing happens when there is none. *)
Definition rename_columns (df : DataFrame) (old new : string) : DataFrame :=
  mkDataFrame (map (λ c, if decide (c = old) then new else c) (columns df))
              (rows df).
End frames.
Arguments DataFrame V : clear implicits.

(** ** K-fold cross-validation (scikit-learn)

  [KFold(n_splits, shuffle=True, random_state=SEED).split(X)] after the
  library: the sample positions are shuffled, cut into [n_splits]
  consecutive folds whose sizes differ by at most one, and every fold is
  yielded as the test positions of one pair, the remaining positions being
  the train positions, both in increasing order.  The shuffle drawn from
  the seeded generator is a parameter. *)

Definition SEED : Z := 42.

Section kfold.
(** [check_random_state(seed).shuffle(indices)] *)
Variable shuffle : Z → list nat → list nat.

(** [a[:k] += 1] *)
Definition incr_prefix (k : nat) (a : list nat) : list nat :=
  map S (take k a) ++ drop k a.

Definition fold_sizes (n_samples n_splits : nat) : list nat :=
  incr_prefix (n_samples mod n_splits)
              (replicate n_splits (n_samples / n_splits)).

(** [a[start:stop]] for [0 <= start <= stop] *)
Definition slice {A} (a : list A) (start stop : nat) : list A :=
  take (stop - start) (drop start a).

Fixpoint iter_folds (indices : list nat) (current : nat)
    (sizes : list nat) : list (list nat) :=
  match sizes with
  | [] => []
  | fold_size :: rest =>
      let start := current in
      let stop := current + fold_size in
      slice indices start stop :: iter_folds indices stop rest
  end.

Definition iter_test_indices (n_splits n_samples : nat) : list (list nat) :=
  let indices := shuffle SEED (seq 0 n_samples) in
  iter_folds indices 0 (fold_sizes n_samples n_splits).

(** [test_mask = np.zeros(n, dtype=bool); test_mask[test_index] = True] *)
Definition test_mask (n_samples : nat) (test_index : list nat) : list bool :=
  foldl (λ mask i, <[i:=true]> mask) (replicate n_samples false) test_index.

(** [np.arange(n)[mask]] *)
Definition masked_arange (mask : list bool) : list nat :=
  filter (λ i, mask !! i = Some true) (seq 0 (length mask)).

Definition KFold_split (n_splits : Z) (n_samples : nat)
    : Result (list (list nat * list nat)) :=
  if decide (n_splits ≤ 1)%Z then Raise ValueError
  else if decide (Z.of_nat n_samples < n_splits)%Z then Raise ValueError
  else Ok (map (λ test_index,
                  let mask := test_mask n_samples test_index in
                  (masked_arange (map negb mask), masked_arange mask))
               (iter_test_indices (Z.to_nat n_splits) n_samples)).

(** ** ABSDataSplitter *)
Context {V : Type} `{EqDecision V}.

Record ABSDataSplitter : Type := { n_splits : Z }.

(** The folds yielded by the generator, in order; an exception raised while
    the generator runs takes the place of the list. *)
Definition k_fold (self : ABSDataSplitter) (df : DataFrame V)
    : Result (list (DataFrame V * DataFrame V)) :=
  folds ← KFold_split (n_splits self) (len df);
  for_each (λ '(train_index, valid_index),
              train ← iloc df train_index;
              valid ← iloc df valid_index;
              Ok (train, valid)) folds.

Definition group_k_fold (self : ABSDataSplitter) (df : DataFrame V)
    (group_col : string) : Result (list (DataFrame V * DataFrame V)) :=
  series ← getitem df group_col;
  let groups := unique series in
  folds ← KFold_split (n_splits self) (length groups);
  for_each (λ '(train_index, valid_index),
              train_groups ← take_positions groups train_index;
              valid_groups ← take_positions groups valid_index;
              train_series ← getitem df group_col;
              valid_series ← getitem df group_col;
              Ok (getitem_mask df (isin train_series train_groups),
                  getitem_mask df (isin valid_series valid_groups))) folds.
End kfold.

(** ** Cross-validation metrics

    Python floats are idealised as real numbers: rounding, infinities and
    NaN are outside the model.  [np.array(a).mean()] and [np.array(a).std()]
    follow numpy: the sum divided by the number of entries, and the square
    root of the mean of the squared absolute deviations from the mean.  What
    [get_metrics] prints is left out. *)

Section metrics.
Local Open Scope R_scope.

(** The result object of [model.cv]; only [cv_metrics] is read here. *)
Record CVResult : Type := { cv_metrics : list R }.

Definition np_sum (a : list R) : R := foldr Rplus 0 a.

Definition np_mean (a : list R) : R := np_sum a / INR (length a).

Definition np_std (a : list R) : R :=
  let x_mean := np_mean a in
  sqrt (np_mean (map (λ x, (Rabs (x - x_mean))²) a)).

Definition _calc_sharpe (mean std : R) : R := mean / (std + 1).

Definition get_metrics (res : CVResult) : gmap string R :=
  let cv_metrics := cv_metrics res in
  let cv_mean := np_mean cv_metrics in
  let cv_std := np_std cv_metrics in
  let cv_sharpe := _calc_sharpe cv_mean cv_std in
  {[ "cv_mean" := cv_mean; "cv_std" := cv_std; "cv_sharpe" := cv_sharpe ]}.

(** The statistics the specification names, written from their textbook
    definitions, to compare [get_metrics] with. *)
Fixpoint total (xs : list R) : R :=
  match xs with
  | [] => 0
  | x :: rest => x + total rest
  end.

Definition arithmetic_mean (xs : list R) : R := total xs / INR (length xs).

Definition population_variance (xs : list R) : R :=
  total (map (λ x, (x - arithmetic_mean xs) * (x - arithmetic_mean xs)) xs)
  / INR (length xs).

Definition population_std (xs : list R) : R := sqrt (population_variance xs).
End metrics.

(** ** Calls into the outside world

    The module's own code runs over a [World]: the state [W] of everything
    outside the module (file system, remote services, the objects of other
    libraries and of subclasses), and the trace of the calls made into it.
    Foreign code is a computation over [W] alone.  Console output of the
    pipeline is not part of the trace. *)

Record World (W Ev : Type) : Type := mkWorld { outside : W; trace : list Ev }.
Arguments mkWorld {W Ev} outside trace.
Arguments outside {W Ev} w.
Arguments trace {W Ev} w.

(** Calling foreign code: the call is run and logged with its outcome. *)
Definition call {W Ev A} (ev : Result A → Ev) (f : Py W A)
    : Py (World W Ev) A :=
  λ s, let '(w, r) := f (outside s) in (mkWorld w (trace s ++ [ev r]), r).

(** [emits P m]: whatever the state, the calls that [m] adds to the trace all
    satisfy [P]. *)
Definition emits {W Ev A} (P : Ev → Prop) (m : Py (World W Ev) A) : Prop :=
  ∀ s, ∃ t, trace (m s).1 = trace s ++ t ∧ Forall P t.

(** ** Binding the arguments of a call

    How Python binds positional and keyword arguments to the parameters of a
    function without [*args] or [**kwargs]. *)

Section call_binding.
Context {Val : Type}.

(** A parameter: its name and its default value, when it has one. *)
Definition Signature : Type := list (string * option Val).

(** A parameter slot: name, default, and the argument bound so far. *)
Definition Slot : Type := string * option Val * option Val.

Fixpoint bind_positional (params : Signature) (args : list Val)
    : Result (list Slot) :=
  match params, args with
  | _, [] => Ok (map (λ '(name, default), (name, default, None)) params)
  | [], _ :: _ => Raise TypeError
  | (name, default) :: params', v :: args' =>
      slots ← bind_positional params' args';
      Ok ((name, default, Some v) :: slots)
  end.

(** An unknown keyword, or a parameter bound twice, is a TypeError. *)
Fixpoint bind_keyword (slots : list Slot) (key : string) (v : Val)
    : Result (list Slot) :=
  match slots with
  | [] => Raise TypeError
  | (name, default, bound) :: rest =>
      if decide (name = key) then
        match bound with
        | Some _ => Raise TypeError
        | None => Ok ((name, default, Some v) :: rest)
        end
      else
        rest' ← bind_keyword rest key v;
        Ok ((name, default, bound) :: rest')
  end.

Fixpoint bind_keywords (slots : list Slot) (kwargs : list (string * Val))
    : Result (list Slot) :=
  match kwargs with
  | [] => Ok slots
  | (key, v) :: rest =>
      slots' ← bind_keyword slots key v;
      bind_keywords slots' rest
  end.

(** A parameter left unbound takes its default; without one, TypeError. *)
Definition apply_defaults (slots : list Slot) : Result (list (string * Val)) :=
  for_each (λ '(name, default, bound),
              match bound, default with
              | Some v, _ => Ok (name, v)
              | None, Some v => Ok (name, v)
              | None, None => Raise TypeError
              end) slots.

Definition bind_arguments (params : Signature) (args : list Val)
    (kwargs : list (string * Val)) : Result (list (string * Val)) :=
  slots ← bind_positional params args;
  slots ← bind_keywords slots kwargs;
  apply_defaults slots.
End call_binding.
Arguments Signature Val : clear implicits.

(** ** The pipeline classes *)

Section pipeline.
Context {V : Type} `{EqDecision V}.
Variables W Submissions : Type.
#[local] Abbreviation DF := (DataFrame V).

(** The competition API client. *)
Record KaggleApi : Type := {
  authenticate : Py W unit;
  competition_submit : string → string → string → Py W unit;
  competitions_submissions_list : string → Py W Submissions
}.

(** The calls into foreign code that the pipeline makes, each with its
    arguments and its outcome. *)
Inductive Event : Type :=
  | EvLoadFeatures (outcome : Result bool)
  | EvGetFeatures (outcome : Result DF)
  | EvDelFeatures (outcome : Result unit)
  | EvGetCatCols (outcome : Result (list string))
  | EvFetch (dry_run : bool) (outcome : Result DF)
  | EvPreprocess (data : DF) (outcome : Result DF)
  | EvGenerateFeatures (data : DF) (outcome : Result DF)
  | EvSetCategoricalColumns (cols : list string) (outcome : Result unit)
  | EvTrainTestSplit (data : DF) (outcome : Result (DF * DF))
  | EvCvSplit (train : DF) (outcome : Result (list (DF * DF)))
  | EvCv (folds : list (DF * DF)) (save_model : bool)
      (outcome : Result CVResult)
  | EvFit (train : DF) (save_model : bool) (outcome : Result unit)
  | EvEstimate (test : DF) (outcome : Result DF)
  | EvValidate (sub : DF) (outcome : Result unit)
  | EvPathExists (path : string) (outcome : Result bool)
  | EvMakedirs (path : string) (outcome : Result unit)
  | EvToCsv (sub : DF) (path : string) (outcome : Result unit)
  | EvKaggleApi (outcome : Result KaggleApi)
  | EvAuthenticate (outcome : Result unit)
  | EvCompetitionSubmit (file_name message competition : string)
      (outcome : Result unit)
  | EvSubmissionsList (competition : string) (outcome : Result Submissions)
  | EvSleep (seconds : Z) (outcome : Result unit)
  | EvMlflowRun (experiment_name run_name : string)
      (params : gmap string string) (metrics : gmap string R)
      (artifact_paths : list string) (outcome : Result unit)
  | EvSlackNotify (metrics : gmap string R) (outcome : Result unit)
  | EvBreakpoint (outcome : Result unit)
  | EvImport (module : string) (outcome : Result unit).

#[local] Abbreviation M := (Py (World W Event)).

(** The library functions the module calls: [os], [time],
    [DataFrame.to_csv], the experiment tracker, the notifier, the debugger,
    the constructor of the API client, the import of a module, and the
    pandas steps of
    [_get_public_score], which read the public score of the most recent
    submission as a float. *)
Record Libraries : Type := {
  os_path_exists : string → Py W bool;
  os_makedirs : string → Py W unit;
  os_path_join : string → string → string;
  to_csv : DF → string → Py W unit;
  time_sleep : Z → Py W unit;
  mlflow_run :
    string → string → gmap string string → gmap string R → list string →
    Py W unit;
  slack_notify : gmap string R → Py W unit;
  breakpoint : Py W unit;
  KaggleApi_new : Py W KaggleApi;
  import_module : string → Py W unit;
  latest_public_score : Submissions → Result R
}.
Variable lib : Libraries.

(** *** The imports of mlutil

    At import time the module takes four names from the package [mlutil],
    and from [mymodules.mlutil] instead when that raises ImportError. *)
Definition import_mlutil (package : string) : M unit :=
  _ ← call (EvImport (package +:+ ".features"))
           (import_module lib (package +:+ ".features"));
  _ ← call (EvImport (package +:+ ".mlbase"))
           (import_module lib (package +:+ ".mlbase"));
  _ ← call (EvImport (package +:+ ".util"))
           (import_module lib (package +:+ ".util"));
  call (EvImport (package +:+ ".util.notifier"))
       (import_module lib (package +:+ ".util.notifier")).

Definition module_imports : M unit :=
  try_except (import_mlutil "mlutil") is_ImportError
             (import_mlutil "mymodules.mlutil").

(** [ABSFeatureGenerator] (mlutil): the cache lookup, the [df] attribute and
    its deletion, the [cat_cols] attribute, and the call. *)
Record ABSFeatureGenerator : Type := {
  _load_features : Py W bool;
  get_df : Py W DF;
  del_df : Py W unit;
  cat_cols : Py W (list string);
  generate_features : DF → Py W DF
}.

(** [MLBase] (mlutil) *)
Record MLBase : Type := {
  target_col : string;
  model_base_name : string;
  model_dir : string;
  oof_dir : string;
  set_categorical_columns : list string → Py W unit;
  cv : list (DF * DF) → bool → Py W CVResult;
  fit : DF → bool → Py W unit;
  estimate : DF → Py W DF
}.

(** *** ABSCallable, ABSDataFetcher, ABSDataPreprocessor *)

(** An instance of a subclass is given by its [main]. *)
Record ABSCallable : Type := { main : DF → Py W DF }.

Definition ABSCallable_main {S} (df : DF) : Py S DF :=
  raise NotImplementedError.

Definition ABSCallable_call (self : ABSCallable) (df : DF) : Py W DF :=
  main self df.

Record ABSDataFetcher : Type := { fetcher_main : bool → Py W DF }.

Definition ABSDataFetcher_main {S} (dry_run : bool) : Py S DF :=
  raise NotImplementedError.

Definition ABSDataFetcher_call (self : ABSDataFetcher) (dry_run : bool)
    : Py W DF :=
  fetcher_main self dry_run.

(** The classes themselves, whose [main] is the placeholder.
    [ABSDataPreprocessor] adds nothing to [ABSCallable]. *)
Definition ABSCallable_base : ABSCallable := {| main := ABSCallable_main |}.
Definition ABSDataPreprocessor_base : ABSCallable := ABSCallable_base.
Definition ABSDataFetcher_base : ABSDataFetcher :=
  {| fetcher_main := ABSDataFetcher_main |}.

(** *** init_preprocessor *)

Fixpoint _apply {S} (args : list (DF → Py S DF)) (df : DF) : Py S DF :=
  match args with
  | [] => mret df
  | processor :: rest => df ← processor df; _apply rest df
  end.

Definition init_preprocessor {S} (args : list (DF → Py S DF))
    : DF → Py S DF :=
  _apply args.

(** The nested application [pn(...(p2(p1(df)))...)] the specification
    compares [init_preprocessor] with, by recursion on the processors from the
    outermost one: [outermost_first] lists [pn, ..., p1]. *)
Fixpoint nested_application {S} (outermost_first : list (DF → Py S DF))
    (df : DF) : Py S DF :=
  match outermost_first with
  | [] => mret df
  | outer :: inner => nested_application inner df ≫= outer
  end.

(** *** ABSDataPostprocessor *)

Record ABSDataPostprocessor : Type := { save_dir : option string }.

Definition ABSDataPostprocessor_main {S} (df : DF) : Py S DF :=
  raise NotImplementedError.

Definition _init_dir (self : ABSDataPostprocessor) : M unit :=
  try_except
    (match save_dir self with
     | Some dir =>
         found ← call (EvPathExists dir) (os_path_exists lib dir);
         if negb found then call (EvMakedirs dir) (os_makedirs lib dir)
         else mret ()
     | None => raise TypeError (* os.path.exists(None) *)
     end)
    is_OSError
    (mret ()).

Definition truthy (s : option string) : bool :=
  match s with
  | Some s => negb (bool_decide (s = ""))
  | None => false
  end.

Definition ABSDataPostprocessor_init (save_dir : option string)
    : M ABSDataPostprocessor :=
  let self := {| save_dir := save_dir |} in
  _ ← (if truthy save_dir then _init_dir self else mret ());
  mret self.

(** *** ABSDataSplitter: the contract methods *)

Definition ABSDataSplitter_train_test_split {S} (df : DF) : Py S (DF * DF) :=
  raise NotImplementedError.

Definition ABSDataSplitter_cv_split {S} (df : DF) : Py S (list (DF * DF)) :=
  raise NotImplementedError.

(** An instance of a splitter class: the base state and the two contract
    methods as the class defines them. *)
Record DataSplitter : Type := {
  splitter_state : ABSDataSplitter;
  train_test_split : DF → Py W (DF * DF);
  cv_split : DF → Py W (list (DF * DF))
}.

Definition ABSDataSplitter_base (n_splits : Z) : DataSplitter :=
  {| splitter_state := {| n_splits := n_splits |};
     train_test_split := ABSDataSplitter_train_test_split;
     cv_split := ABSDataSplitter_cv_split |}.

(** *** ABSSubmitter *)

(** What a submitter class fixes: the class attributes and the contract
    method.  [submission_csv_dir] is read by [_submit] but defined nowhere in
    the module, so only a subclass can provide it. *)
Record SubmitterClass : Type := {
  cls_competition_name : string;
  cls_experiment_name : string;
  cls_artifact_dir : string;
  cls_submission_csv_dir : option string;
  cls_validate_submit_data : DF → Py W unit
}.

Record ABSSubmitter : Type := {
  competition_name : string;
  experiment_name : string;
  artifact_dir : string;
  submission_csv_dir : option string;
  validate_submit_data : DF → Py W unit;
  data_fetcher : ABSDataFetcher;
  data_preprocessor : DF → Py W DF;
  feature_generator : ABSFeatureGenerator;
  data_splitter : DataSplitter;
  model : MLBase;
  submission_comment : string;
  api : option KaggleApi
}.

Definition ABSSubmitter_validate_submit_data {S} (sub : DF) : Py S unit :=
  raise NotImplementedError.

Definition ABSSubmitter_class : SubmitterClass :=
  {| cls_competition_name := "";
     cls_experiment_name := "";
     cls_artifact_dir := "/kaggle/input/artifact/";
     cls_submission_csv_dir := None;
     cls_validate_submit_data := ABSSubmitter_validate_submit_data |}.

Definition _init_kaggle_api : M (option KaggleApi) :=
  try_except
    (api ← call EvKaggleApi (KaggleApi_new lib);
     _ ← call EvAuthenticate (authenticate api);
     mret (Some api))
    is_OSError
    (mret None).

Definition ABSSubmitter_init (cls : SubmitterClass)
    (data_fetcher : ABSDataFetcher) (data_preprocessor : DF → Py W DF)
    (feature_generator : ABSFeatureGenerator) (data_splitter : DataSplitter)
    (model : MLBase) (submission_comment : string) : M ABSSubmitter :=
  if bool_decide (cls_competition_name cls = "") then raise ValueError
  else if bool_decide (cls_experiment_name cls = "") then raise ValueError
  else
    api ← _init_kaggle_api;
    mret {| competition_name := cls_competition_name cls;
            experiment_name := cls_experiment_name cls;
            artifact_dir := cls_artifact_dir cls;
            submission_csv_dir := cls_submission_csv_dir cls;
            validate_submit_data := cls_validate_submit_data cls;
            data_fetcher := data_fetcher;
            data_preprocessor := data_preprocessor;
            feature_generator := feature_generator;
            data_splitter := data_splitter;
            model := model;
            submission_comment := submission_comment;
            api := api |}.

Definition get_submit_data (self : ABSSubmitter) (test : DF) : M DF :=
  sub ← call (EvEstimate test) (estimate (model self) test);
  sub ← (if contains sub (target_col (model self))
         then lift (drop_columns sub (target_col (model self)))
         else mret sub);
  mret (rename_columns sub "pred" (target_col (model self))).

Definition get_experiment_params (self : ABSSubmitter) : gmap string string :=
  {[ "model" := model_base_name (model self) ]}.

(** [{**a, **b}]: the entries of [b] win. *)
Definition dict_merge (a b : gmap string string) : gmap string string := b ∪ a.

Definition _process_data (self : ABSSubmitter) (dry_run : bool) : M DF :=
  data ← call (EvFetch dry_run)
              (ABSDataFetcher_call (data_fetcher self) dry_run);
  data ← call (EvPreprocess data) (data_preprocessor self data);
  data ← call (EvGenerateFeatures data)
              (generate_features (feature_generator self) data);
  mret data.

Definition process_data (self : ABSSubmitter) (dry_run : bool) : M DF :=
  cached ← call EvLoadFeatures (_load_features (feature_generator self));
  data ← (if cached : bool
          then call EvGetFeatures (get_df (feature_generator self))
          else _process_data self dry_run);
  _ ← call EvDelFeatures (del_df (feature_generator self));
  cols ← call EvGetCatCols (cat_cols (feature_generator self));
  _ ← call (EvSetCategoricalColumns cols)
           (set_categorical_columns (model self) cols);
  mret data.

(** The values passed to [_train_and_evaluate]. *)
Inductive PyValue : Type :=
  | VFrame (df : DF)
  | VBool (b : bool).

Definition _train_and_evaluate_signature : Signature PyValue :=
  [("train", None);
   ("retrain_all_data", Some (VBool false));
   ("save_model", Some (VBool true))].

Definition _train_and_evaluate_body (self : ABSSubmitter) (train : DF)
    (retrain_all_data save_model : bool) : M CVResult :=
  cols ← call EvGetCatCols (cat_cols (feature_generator self));
  _ ← call (EvSetCategoricalColumns cols)
           (set_categorical_columns (model self) cols);
  fold_generator ← call (EvCvSplit train)
                        (cv_split (data_splitter self) train);
  res ← call (EvCv fold_generator (save_model && negb retrain_all_data))
             (cv (model self) fold_generator
                 (save_model && negb retrain_all_data));
  _ ← (if retrain_all_data
       then call (EvFit train save_model) (fit (model self) train save_model)
       else mret ());
  mret res.

(** A call of [self._train_and_evaluate] with positional arguments [args]
    and keyword arguments [kwargs].  Arguments of
    another dynamic type than a frame for [train] and booleans for the flags
    are not passed anywhere in the module. *)
Definition _train_and_evaluate (self : ABSSubmitter) (args : list PyValue)
    (kwargs : list (string * PyValue)) : M CVResult :=
  bound ← lift (bind_arguments _train_and_evaluate_signature args kwargs);
  match bound with
  | [(_, VFrame train); (_, VBool retrain_all_data); (_, VBool save_model)] =>
      _train_and_evaluate_body self train retrain_all_data save_model
  | _ => raise TypeError
  end.

Definition get_api (self : ABSSubmitter) : M KaggleApi :=
  match api self with
  | Some a => mret a
  | None => raise AttributeError
  end.

Definition _submit (self : ABSSubmitter) (sub : DF) : M unit :=
  match submission_csv_dir self with
  | None => raise AttributeError
  | Some dir =>
      found ← call (EvPathExists dir) (os_path_exists lib dir);
      _ ← (if negb found then call (EvMakedirs dir) (os_makedirs lib dir)
           else mret ());
      let file_name := dir +:+ "submission.csv" in
      _ ← call (EvToCsv sub file_name) (to_csv lib sub file_name);
      a ← get_api self;
      call (EvCompetitionSubmit file_name (submission_comment self)
                                (competition_name self))
           (competition_submit a file_name (submission_comment self)
                               (competition_name self))
  end.

Definition _get_public_score (self : ABSSubmitter) : M R :=
  a ← get_api self;
  sub ← call (EvSubmissionsList (competition_name self))
             (competitions_submissions_list a (competition_name self));
  lift (latest_public_score lib sub).

Definition ABSSubmitter__save_experiment (self : ABSSubmitter)
    (res : CVResult) (sub : DF) (params : gmap string string) : M unit :=
  public_score ← _get_public_score self;
  let metrics := get_metrics res in
  let metrics := <["public_score" := public_score]> metrics in
  _ ← call (EvMlflowRun (experiment_name self) (submission_comment self)
                        params metrics [model_dir (model self)])
           (mlflow_run lib (experiment_name self) (submission_comment self)
                       params metrics [model_dir (model self)]);
  _ ← call (EvSlackNotify metrics) (slack_notify lib metrics);
  let path :=
    os_path_join lib (artifact_dir self)
      ("submission/" +:+ submission_comment self +:+ "/submission.csv") in
  call (EvToCsv sub path) (to_csv lib sub path).

Definition make_submission (self : ABSSubmitter)
    (params_info : gmap string string)
    (retrain_all_data save_model dry_run return_only : bool)
    : M (option (DF * CVResult)) :=
  data ← process_data self dry_run;
  '(train, test) ← call (EvTrainTestSplit data)
                        (train_test_split (data_splitter self) data);
  res ← _train_and_evaluate self [VFrame train]
          [("retrain_all_data", VBool retrain_all_data);
           ("save_model", VBool save_model)];
  sub ← get_submit_data self test;
  _ ← call (EvValidate sub) (validate_submit_data self sub);
  if negb dry_run then
    if return_only then mret (Some (sub, res))
    else
      _ ← _submit self sub;
      _ ← call (EvSleep 15) (time_sleep lib 15);
      _ ← ABSSubmitter__save_experiment self res sub
            (dict_merge (get_experiment_params self) params_info);
      mret None
  else
    _ ← call EvBreakpoint (breakpoint lib);
    mret None.

(** The calls that train a model. *)
Definition is_training_event (ev : Event) : bool :=
  match ev with
  | EvCvSplit _ _ | EvCv _ _ _ | EvFit _ _ _ => true
  | _ => false
  end.

(** The calls that fetch, preprocess and generate features. *)
Definition is_preparation_event (ev : Event) : bool :=
  match ev with
  | EvFetch _ _ | EvPreprocess _ _ | EvGenerateFeatures _ _ => true
  | _ => false
  end.

(** *** CodeSubmitter *)

Definition CodeSubmitter_estimate {S} (test sub : DF) (proba : bool)
    : Py S DF :=
  raise NotImplementedError.

Definition get_mock_api {S A} : Py S A := raise NotImplementedError.

Definition CodeSubmitter__save_experiment (self : ABSSubmitter)
    (res : CVResult) (params : gmap string string) : M unit :=
  let metrics := get_metrics res in
  let metrics := <["public_score" := 0%R]> metrics in
  _ ← call (EvMlflowRun (experiment_name self) (submission_comment self)
                        params metrics
                        [model_dir (model self); oof_dir (model self)])
           (mlflow_run lib (experiment_name self) (submission_comment self)
                       params metrics
                       [model_dir (model self); oof_dir (model self)]);
  call (EvSlackNotify metrics) (slack_notify lib metrics).

Definition experiment (self : ABSSubmitter) (params_info : gmap string string)
    (retrain_all_data dry_run return_only : bool) : M (option CVResult) :=
  df ← process_data self dry_run;
  res ← _train_and_evaluate self []
          [("features", VFrame df);
           ("retrain_all_data", VBool retrain_all_data)];
  if negb dry_run then
    if return_only then mret (Some res)
    else
      let experiment_params :=
        dict_merge (get_experiment_params self) params_info in
      _ ← CodeSubmitter__save_experiment self res experiment_params;
      mret None
  else
    _ ← call EvBreakpoint (breakpoint lib);
    mret None.
End pipeline.
Arguments Event V W Submissions : clear implicits.
Arguments KaggleApi W Submissions : clear implicits.
Arguments Libraries V W Submissions : clear implicits.
Arguments ABSFeatureGenerator V W : clear implicits.
Arguments MLBase V W : clear implicits.
Arguments ABSCallable V W : clear implicits.
Arguments ABSDataFetcher V W : clear implicits.
Arguments DataSplitter V W : clear implicits.
Arguments SubmitterClass V W : clear implicits.
Arguments ABSSubmitter V W Submissions : clear implicits.
Arguments PyValue V : clear implicits.
Arguments EvLoadFeatures {V W Submissions}.
Arguments EvGetFeatures {V W Submissions}.
Arguments EvDelFeatures {V W Submissions}.
Arguments EvGetCatCols {V W Submissions}.
Arguments EvFetch {V W Submissions}.
Arguments EvPreprocess {V W Submissions}.
Arguments EvGenerateFeatures {V W Submissions}.
Arguments EvSetCategoricalColumns {V W Submissions}.
Arguments EvTrainTestSplit {V W Submissions}.
Arguments EvCvSplit {V W Submissions}.
Arguments EvCv {V W Submissions}.
Arguments EvFit {V W Submissions}.
Arguments EvEstimate {V W Submissions}.
Arguments EvValidate {V W Submissions}.
Arguments EvPathExists {V W Submissions}.
Arguments EvMakedirs {V W Submissions}.
Arguments EvToCsv {V W Submissions}.
Arguments EvKaggleApi {V W Submissions}.
Arguments EvAuthenticate {V W Submissions}.
Arguments EvCompetitionSubmit {V W Submissions}.
Arguments EvSubmissionsList {V W Submissions}.
Arguments EvSleep {V W Submissions}.
Arguments EvMlflowRun {V W Submissions}.
Arguments EvSlackNotify {V W Submissions}.
Arguments EvBreakpoint {V W Submissions}.
Arguments EvImport {V W Submissions}.
Arguments VFrame {V}.
Arguments VBool {V}.
Arguments authenticate {W Submissions}.
Arguments competition_submit {W Submissions}.
Arguments competitions_submissions_list {W Submissions}.
Arguments os_path_exists {V W Submissions}.
Arguments os_makedirs {V W Submissions}.
Arguments os_path_join {V W Submissions}.
Arguments to_csv {V W Submissions}.
Arguments time_sleep {V W Submissions}.
Arguments mlflow_run {V W Submissions}.
Arguments slack_notify {V W Submissions}.
Arguments breakpoint {V W Submissions}.
Arguments KaggleApi_new {V W Submissions}.
Arguments import_module {V W Submissions}.
Arguments latest_public_score {V W Submissions}.
Arguments _load_features {V W}.
Arguments get_df {V W}.
Arguments del_df {V W}.
Arguments cat_cols {V W}.
Arguments generate_features {V W}.
Arguments target_col {V W}.
Arguments model_base_name {V W}.
Arguments model_dir {V W}.
Arguments oof_dir {V W}.
Arguments set_categorical_columns {V W}.
Arguments cv {V W}.
Arguments fit {V W}.
Arguments estimate {V W}.
Arguments main {V W}.
Arguments fetcher_main {V W}.
Arguments splitter_state {V W}.
Arguments train_test_split {V W}.
Arguments cv_split {V W}.
Arguments cls_competition_name {V W}.
Arguments cls_experiment_name {V W}.
Arguments cls_artifact_dir {V W}.
Arguments cls_submission_csv_dir {V W}.
Arguments cls_validate_submit_data {V W}.
Arguments competition_name {V W Submissions}.
Arguments experiment_name {V W Submissions}.
Arguments artifact_dir {V W Submissions}.
Arguments submission_csv_dir {V W Submissions}.
Arguments validate_submit_data {V W Submissions}.
Arguments data_fetcher {V W Submissions}.
Arguments data_preprocessor {V W Submissions}.
Arguments feature_generator {V W Submissions}.
Arguments data_splitter {V W Submissions}.
Arguments model {V W Submissions}.
Arguments submission_comment {V W Submissions}.
Arguments api {V W Submissions}.
Arguments is_training_event {V W Submissions} ev.
Arguments is_preparation_event {V W Submissions} ev.
Arguments ABSCallable_call {V W} self df _.
Arguments ABSDataFetcher_call {V W} self dry_run _.
Arguments ABSCallable_base {V W}.
Arguments ABSDataPreprocessor_base {V W}.
Arguments ABSDataFetcher_base {V W}.
Arguments ABSDataSplitter_base {V W} n_splits.
Arguments ABSSubmitter_class {V W}.
Arguments import_mlutil {V W Submissions} lib package _.
Arguments module_imports {V W Submissions} lib _.
Arguments _init_dir {V W Submissions} lib self _.
Arguments ABSDataPostprocessor_init {V W Submissions} lib save_dir _.
Arguments _init_kaggle_api {V W Submissions} lib _.
Arguments ABSSubmitter_init {V W Submissions} lib cls data_fetcher
  data_preprocessor feature_generator data_splitter model submission_comment _.
Arguments get_submit_data {V W Submissions} self test _.
Arguments get_experiment_params {V W Submissions} self.
Arguments _process_data {V W Submissions} self dry_run _.
Arguments process_data {V W Submissions} self dry_run _.
Arguments _train_and_evaluate_body {V W Submissions} self train
  retrain_all_data save_model _.
Arguments _train_and_evaluate {V W Submissions} self args kwargs _.
Arguments get_api {V W Submissions} self _.
Arguments _submit {V W Submissions} lib self sub _.
Arguments _get_public_score {V W Submissions} lib self _.
Arguments ABSSubmitter__save_experiment {V W Submissions} lib self res sub
  params _.
Arguments make_submission {V W Submissions} lib self params_info
  retrain_all_data save_model dry_run return_only _.
Arguments CodeSubmitter__save_experiment {V W Submissions} lib self res
  params _.
Arguments experiment {V W Submissions} lib self params_info retrain_all_data
  dry_run return_only _.

(** ** watch_submit_time *)

(** A submission as listed by the competition API.  Datetimes are naive UTC
    instants, counted in microseconds. *)
Record Submission : Type := {
  ref : Z;
  status : string;
  date : Z;
  publicScore : string
}.

(** What the function does to the outside: the calls with their outcomes,
    and the lines printed. *)
Inductive PollEvent : Type :=
  | EvApiNew (outcome : Result unit)
  | EvApiAuthenticate (outcome : Result unit)
  | EvCompetitionSubmissions (competition : string)
      (outcome : Result (list Submission))
  | EvNow (outcome : Result Z)
  | EvPrintElapsed (minutes : Z)
  | EvPrintRunTime (minutes : Z) (score : string)
  | EvTimeSleep (seconds : Z) (outcome : Result unit).

(** How the loop ends: it exits, or the fuel that bounds the number of
    iterations in the model runs out while it is still polling. *)
Inductive LoopExit : Type :=
  | Completed
  | StillPolling.

Definition COMPETITION : string := "predict-student-performance-from-game-play".

(** [timedelta.seconds]: the seconds within the day of a difference of two
    instants. *)
Definition timedelta_seconds (delta : Z) : Z :=
  ((delta mod 86400000000) / 1000000)%Z.

(** [int((now - submit_time).seconds / 60) + 1] *)
Definition elapsed_minutes (now submit_time : Z) : Z :=
  (timedelta_seconds (now - submit_time) / 60 + 1)%Z.

(** The [for result in list_of_submission] loop with its [break]: [result]
    is assigned every visited entry, and keeps its former value over an empty
    list. *)
Fixpoint find_result (latest_ref : string) (result : option Submission)
    (list_of_submission : list Submission) : option Submission :=
  match list_of_submission with
  | [] => result
  | r :: rest =>
      if decide (pretty (ref r) = latest_ref) then Some r
      else find_result latest_ref (Some r) rest
  end.

(** The calls and the output of a round of the loop that reads a status
    other than "complete", from the submissions and the time it is given. *)
Definition pending_round (submit_time : Z) (round : list Submission * Z)
    : list PollEvent :=
  [EvCompetitionSubmissions COMPETITION (Ok round.1);
   EvNow (Ok round.2);
   EvPrintElapsed (elapsed_minutes round.2 submit_time);
   EvTimeSleep 60 (Ok ())].

Section polling.
Variable W : Type.
#[local] Abbreviation M := (Py (World W PollEvent)).

Record SubmissionApi : Type := {
  api_authenticate : Py W unit;
  competition_submissions : string → Py W (list Submission)
}.

(** The API constructor, [str] of a submission, the clock and [time.sleep]. *)
Record PollLibraries : Type := {
  api_new : Py W SubmissionApi;
  str_submission : Submission → string;
  utc_now : Py W Z;
  sleep : Z → Py W unit
}.
Variable lib : PollLibraries.

(** [print]: console output, which changes nothing else. *)
Definition print (ev : PollEvent) : M unit := call (λ _, ev) (mret ()).

(** The statements before the loop. *)
Definition latest_submission : M (SubmissionApi * string * Z) :=
  api ← call (λ r, EvApiNew ((λ _, ()) <$> r)) (api_new lib);
  _ ← call EvApiAuthenticate (api_authenticate api);
  submissions ← call (EvCompetitionSubmissions COMPETITION)
                     (competition_submissions api COMPETITION);
  match submissions with
  | [] => raise IndexError
  | result_ :: _ => mret (api, str_submission lib result_, date result_)
  end.

(** One run of the loop body; it returns the new values of [status] and
    [result]. *)
Definition poll (api : SubmissionApi) (latest_ref : string) (submit_time : Z)
    (result : option Submission) : M (string * option Submission) :=
  list_of_submission ← call (EvCompetitionSubmissions COMPETITION)
                            (competition_submissions api COMPETITION);
  match find_result latest_ref result list_of_submission with
  | None => raise UnboundLocalError
  | Some result =>
      let status := status result in
      now ← call EvNow (utc_now lib);
      let elapsed_time := elapsed_minutes now submit_time in
      _ ← (if bool_decide (status = "complete")
           then print (EvPrintRunTime elapsed_time (publicScore result))
           else _ ← print (EvPrintElapsed elapsed_time);
                call (EvTimeSleep 60) (sleep lib 60));
      mret (status, Some result)
  end.

(** [while status != "complete": ...], for at most [fuel] iterations. *)
Fixpoint watch_loop (fuel : nat) (api : SubmissionApi) (latest_ref : string)
    (submit_time : Z) (status : string) (result : option Submission)
    : M LoopExit :=
  if bool_decide (status ≠ "complete") then
    match fuel with
    | O => mret StillPolling
    | S fuel' =>
        '(status, result) ← poll api latest_ref submit_time result;
        watch_loop fuel' api latest_ref submit_time status result
    end
  else mret Completed.

Definition watch_submit_time (fuel : nat) : M LoopExit :=
  '(api, latest_ref, submit_time) ← latest_submission;
  watch_loop fuel api latest_ref submit_time "" None.

(** [pending_rounds n x y]: from the world and [result] of [x], the loop body
    runs [n] times in a row, each time reading a status other than
    "complete", and leaves the world and [result] of [y]. *)
Inductive pending_rounds (api : SubmissionApi) (latest_ref : string)
    (submit_time : Z)
    : nat → World W PollEvent * option Submission →
      World W PollEvent * option Submission → Prop :=
  | pending_none x : pending_rounds api latest_ref submit_time 0 x x
  | pending_more n s result s' status result' y :
      poll api latest_ref submit_time result s = (s', Ok (status, result')) →
      status ≠ "complete" →
      pending_rounds api latest_ref submit_time n (s', result') y →
      pending_rounds api latest_ref submit_time (S n) (s, result) y.
End polling.
Arguments SubmissionApi W : clear implicits.
Arguments PollLibraries W : clear implicits.
Arguments print {W} ev _.
Arguments latest_submission {W} lib _.
Arguments poll {W} lib api latest_ref submit_time result _.
Arguments watch_loop {W} lib fuel api latest_ref submit_time status result _.
Arguments watch_submit_time {W} lib fuel _.
Arguments pending_rounds {W} lib api latest_ref submit_time _ _ _.

(** ** A small competition, to run the definitions on *)

Definition reverse_shuffle (seed : Z) (indices : list nat) : list nat :=
  reverse indices.

Definition toy_frame : DataFrame Z :=
  mkDataFrame ["id"; "group"; "y"]
    [[1; 10; 0]; [2; 20; 1]; [3; 10; 1]; [4; 30; 0]; [5; 20; 0]]%Z.

Definition toy_splitter : ABSDataSplitter := {| n_splits := 2 |}.

(** Foreign code that returns at once and keeps no state. *)
Definition returns {A} (a : A) : Py unit A := λ w, (w, Ok a).

Definition toy_predictions : DataFrame Z :=
  mkDataFrame ["id"; "pred"] [[4; 1]; [5; 0]]%Z.

Definition toy_result : CVResult := {| cv_metrics := [1%R; 3%R] |}.

Definition toy_model : MLBase Z unit :=
  {| target_col := "y";
     model_base_name := "toy";
     model_dir := "./model/";
     oof_dir := "./oof/";
     set_categorical_columns := λ _, returns ();
     cv := λ _ _, returns toy_result;
     fit := λ _ _, returns ();
     estimate := λ _, returns toy_predictions |}.

Definition toy_fetcher : ABSDataFetcher Z unit :=
  {| fetcher_main := λ _, returns toy_frame |}.

Definition toy_features (cached : bool) : ABSFeatureGenerator Z unit :=
  {| _load_features := returns cached;
     get_df := returns toy_frame;
     del_df := returns ();
     cat_cols := returns ["group"];
     generate_features := λ df, returns df |}.

Definition toy_data_splitter : DataSplitter Z unit :=
  {| splitter_state := toy_splitter;
     train_test_split := λ df,
       λ w, (w, train ← iloc df [0; 1; 2]; test ← iloc df [3; 4];
                Ok (train, test));
     cv_split := λ df, λ w, (w, k_fold reverse_shuffle toy_splitter df) |}.

Definition toy_api : KaggleApi unit (list (Z * R)) :=
  {| authenticate := returns ();
     competition_submit := λ _ _ _, returns ();
     competitions_submissions_list := λ _, returns [(0%Z, 1%R)] |}.

Definition toy_libraries : Libraries Z unit (list (Z * R)) :=
  {| os_path_exists := λ _, returns false;
     os_makedirs := λ _, returns ();
     os_path_join := λ a b, a +:+ b;
     to_csv := λ _ _, returns ();
     time_sleep := λ _, returns ();
     mlflow_run := λ _ _ _ _ _, returns ();
     slack_notify := λ _, returns ();
     breakpoint := returns ();
     KaggleApi_new := returns toy_api;
     import_module := λ _, returns ();
     latest_public_score := λ subs,
       match subs with
       | (_, score) :: _ => Ok score
       | [] => Raise IndexError
       end |}.

Definition toy_class : SubmitterClass Z unit :=
  {| cls_competition_name := "toy-competition";
     cls_experiment_name := "toy-experiment";
     cls_artifact_dir := "/kaggle/input/artifact/";
     cls_submission_csv_dir := Some "./submission/";
     cls_validate_submit_data := λ _, returns () |}.

Definition toy_submitter (cached : bool)
    : ABSSubmitter Z unit (list (Z * R)) :=
  {| competition_name := "toy-competition";
     experiment_name := "toy-experiment";
     artifact_dir := "/kaggle/input/artifact/";
     submission_csv_dir := Some "./submission/";
     validate_submit_data := λ _, returns ();
     data_fetcher := toy_fetcher;
     data_preprocessor := λ df, returns df;
     feature_generator := toy_features cached;
     data_splitter := toy_data_splitter;
     model := toy_model;
     submission_comment := "first try";
     api := Some toy_api |}.

Definition toy_world : World unit (Event Z unit (list (Z * R))) := mkWorld () [].

(** A submitter that was given the base fetcher. *)
Definition unfinished_submitter : ABSSubmitter Z unit (list (Z * R)) :=
  {| competition_name := "toy-competition";
     experiment_name := "toy-experiment";
     artifact_dir := "/kaggle/input/artifact/";
     submission_csv_dir := Some "./submission/";
     validate_submit_data := λ _, returns ();
     data_fetcher := ABSDataFetcher_base;
     data_preprocessor := λ df, returns df;
     feature_generator := toy_features false;
     data_splitter := toy_data_splitter;
     model := toy_model;
     submission_comment := "first try";
     api := Some toy_api |}.

(** A competition whose target column is itself called "pred", and a model
    whose estimate already names its predictions after the target. *)
Definition with_model (mdl : MLBase Z unit)
    : ABSSubmitter Z unit (list (Z * R)) :=
  {| competition_name := "toy-competition";
     experiment_name := "toy-experiment";
     artifact_dir := "/kaggle/input/artifact/";
     submission_csv_dir := Some "./submission/";
     validate_submit_data := λ _, returns ();
     data_fetcher := toy_fetcher;
     data_preprocessor := λ df, returns df;
     feature_generator := toy_features false;
     data_splitter := toy_data_splitter;
     model := mdl;
     submission_comment := "first try";
     api := Some toy_api |}.

Definition pred_target_model : MLBase Z unit :=
  {| target_col := "pred";
     model_base_name := "toy";
     model_dir := "./model/";
     oof_dir := "./oof/";
     set_categorical_columns := λ _, returns ();
     cv := λ _ _, returns toy_result;
     fit := λ _ _, returns ();
     estimate := λ _, returns toy_predictions |}.

Definition labelled_model : MLBase Z unit :=
  {| target_col := "y";
     model_base_name := "toy";
     model_dir := "./model/";
     oof_dir := "./oof/";
     set_categorical_columns := λ _, returns ();
     cv := λ _ _, returns toy_result;
     fit := λ _ _, returns ();
     estimate := λ _, returns (mkDataFrame ["id"; "y"] [[4; 1]; [5; 0]]%Z) |}.

(** Libraries on a machine where the API client cannot be set up. *)
Definition offline_libraries : Libraries Z unit (list (Z * R)) :=
  {| os_path_exists := λ _, returns false;
     os_makedirs := λ _, returns ();
     os_path_join := λ a b, a +:+ b;
     to_csv := λ _ _, returns ();
     time_sleep := λ _, returns ();
     mlflow_run := λ _ _ _ _ _, returns ();
     slack_notify := λ _, returns ();
     breakpoint := returns ();
     KaggleApi_new := λ w, (w, Raise OSError);
     import_module := λ _, returns ();
     latest_public_score := λ _, Raise IndexError |}.

(** A remote whose state is the number of queries answered so far: the
    submission 7 is pending at the first two queries and complete at the
    third.  The clock advances one minute per query. *)
Definition toy_submission (st : string) : Submission :=
  {| ref := 7; status := st; date := 0; publicScore := "0.695" |}.

Definition old_submission : Submission :=
  {| ref := 3; status := "complete"; date := (-86400000000)%Z;
     publicScore := "0.5" |}.

Definition toy_remote : SubmissionApi nat :=
  {| api_authenticate := λ n, (n, Ok ());
     competition_submissions := λ _ n,
       (S n, Ok [toy_submission (if decide (n < 2) then "pending"
                                 else "complete");
                 old_submission]) |}.

Definition toy_poll_libraries : PollLibraries nat :=
  {| api_new := λ n, (n, Ok toy_remote);
     str_submission := λ r, pretty (ref r);
     utc_now := λ n, (n, Ok (Z.of_nat n * 60000000)%Z);
     sleep := λ _ n, (n, Ok ()) |}.

Definition toy_poll_world : World nat PollEvent := mkWorld 0 [].

(** ** Predicates for further properties *)

(** A frame is well formed when every row has one cell per column. *)
Definition well_formed {V} (df : DataFrame V) : Prop :=
  Forall (λ r, length r = length (columns df)) (rows df).

(** The calls made by [_submit] and [_save_experiment], and the sleep
    between them. *)
Definition is_submission_event {V W Submissions}
    (ev : Event V W Submissions) : bool :=
  match ev with
  | EvPathExists _ _ | EvMakedirs _ _ | EvToCsv _ _ _
  | EvCompetitionSubmit _ _ _ _ | EvSleep _ _ | EvSubmissionsList _ _
  | EvMlflowRun _ _ _ _ _ _ | EvSlackNotify _ _ => true
  | _ => false
  end.

(** The training calls that are told to save the model. *)
Definition saves_model {V W Submissions} (ev : Event V W Submissions) : bool :=
  match ev with
  | EvCv _ save_model _ | EvFit _ save_model _ => save_model
  | _ => false
  end.

(** [never_returns m]: whatever the state, [m] raises. *)
Definition never_returns {S A} (m : Py S A) : Prop :=
  ∀ s, ∃ e, (m s).2 = Raise e.

(** Two folds with the same score. *)
Definition steady_result : CVResult := {| cv_metrics := [2%R; 2%R] |}.

(** A submitter of a class that leaves [validate_submit_data] undefined. *)
Definition unvalidated_submitter : ABSSubmitter Z unit (list (Z * R)) :=
  {| competition_name := "toy-competition";
     experiment_name := "toy-experiment";
     artifact_dir := "/kaggle/input/artifact/";
     submission_csv_dir := Some "./submission/";
     validate_submit_data := ABSSubmitter_validate_submit_data;
     data_fetcher := toy_fetcher;
     data_preprocessor := λ df, returns df;
     feature_generator := toy_features false;
     data_splitter := toy_data_splitter;
     model := toy_model;
     submission_comment := "first try";
     api := Some toy_api |}.

(** A competition without any submission. *)
Definition empty_remote : SubmissionApi nat :=
  {| api_authenticate := λ n, (n, Ok ());
     competition_submissions := λ _ n, (S n, Ok []) |}.

Definition empty_poll_libraries : PollLibraries nat :=
  {| api_new := λ n, (n, Ok empty_remote);
     str_submission := λ r, pretty (ref r);
     utc_now := λ n, (n, Ok (Z.of_nat n * 60000000)%Z);
     sleep := λ _ n, (n, Ok ()) |}.

(** * Properties *)

(** ** Fallible loops *)

Lemma for_each_Ok {A B} (body : A → Result B) (l : list A) (ys : list B) :
  for_each body l = Ok ys ↔ Forall2 (λ x y, body x = Ok y) l ys.
Proof.
  revert ys. induction l as [|x l IH]; intros ys; simpl.
  - split.
    + intros [= <-]. constructor.
    + intros Hl. by inversion Hl.
  - destruct (body x) as [y|e] eqn:Hx; simpl.
    + destruct (for_each body l) as [zs|e] eqn:Hl; simpl.
      * split.
        -- intros [= <-]. constructor; [done|]. by apply IH.
        -- intros Hf. inversion Hf as [|? y' ? zs' Hy Hzs]; subst.
           apply IH in Hzs. congruence.
      * split; [done|].
        intros Hf. inversion Hf as [|? y' ? zs' Hy Hzs]; subst.
        apply IH in Hzs. congruence.
    + split; [done|].
      intros Hf. inversion Hf as [|? y' ? zs' Hy Hzs]; subst. congruence.
Qed.

Lemma for_each_total {A B} (body : A → Result B) (l : list A) :
  Forall (λ x, ∃ y, body x = Ok y) l → ∃ ys, for_each body l = Ok ys.
Proof.
  induction 1 as [|x l [y Hy] _ [ys Hys]]; simpl.
  - by eexists.
  - rewrite Hy, Hys. by eexists.
Qed.

Lemma for_each_length {A B} (body : A → Result B) (l : list A) (ys : list B) :
  for_each body l = Ok ys → length ys = length l.
Proof.
  intros Hl. apply for_each_Ok in Hl. symmetry. by eapply Forall2_length.
Qed.

(** ** The fold arithmetic of KFold *)

Lemma incr_prefix_length k a : length (incr_prefix k a) = length a.
Proof.
  unfold incr_prefix.
  rewrite length_app, length_map, length_take, length_drop. lia.
Qed.

Lemma incr_prefix_sum k a :
  k ≤ length a → sum_list (incr_prefix k a) = sum_list a + k.
Proof.
  revert a. induction k as [|k IH]; intros [|x a] Hk; simpl in *; try lia.
  specialize (IH a ltac:(lia)). unfold incr_prefix in IH. lia.
Qed.

Lemma fold_sizes_length n_samples k : length (fold_sizes n_samples k) = k.
Proof. unfold fold_sizes. by rewrite incr_prefix_length, length_replicate. Qed.

Lemma fold_sizes_sum n_samples k :
  0 < k → sum_list (fold_sizes n_samples k) = n_samples.
Proof.
  intros Hk. unfold fold_sizes.
  rewrite incr_prefix_sum, sum_list_replicate.
  - pose proof (Nat.div_mod_eq n_samples k). lia.
  - rewrite length_replicate.
    pose proof (Nat.mod_upper_bound n_samples k). lia.
Qed.

Lemma iter_folds_length indices current sizes :
  length (iter_folds indices current sizes) = length sizes.
Proof.
  revert current. induction sizes as [|s sizes IH]; intros c; simpl; [done|].
  by rewrite IH.
Qed.

Lemma iter_folds_concat indices current sizes :
  concat (iter_folds indices current sizes)
  = take (sum_list sizes) (drop current indices).
Proof.
  revert current. induction sizes as [|s sizes IH]; intros c; simpl; [done|].
  rewrite IH. unfold slice.
  replace (c + s - c) with s by lia.
  by rewrite <- take_take_drop, drop_drop.
Qed.

Lemma set_true_lookup (mask : list bool) (index : list nat) i b :
  mask !! i = Some b →
  foldl (λ m j, <[j:=true]> m) mask index !! i
  = Some (b || bool_decide (i ∈ index)).
Proof.
  revert mask b. induction index as [|x index IH]; intros mask b Hi; simpl.
  - by rewrite orb_false_r.
  - destruct (decide (x = i)) as [->|Hne].
    + erewrite IH; last first.
      { apply list_lookup_insert_eq. by eapply lookup_lt_Some. }
      simpl. rewrite bool_decide_eq_true_2; [by rewrite orb_true_r|].
      apply elem_of_cons. by left.
    + erewrite IH; last by rewrite list_lookup_insert_ne.
      do 2 f_equal. apply bool_decide_ext. rewrite elem_of_cons.
      split; [by right|]. by intros [->|?].
Qed.

Lemma test_mask_length n index : length (test_mask n index) = n.
Proof.
  unfold test_mask. generalize (length_replicate n false).
  generalize (replicate n false). intros mask <-.
  revert mask. induction index as [|x index IH]; intros mask; simpl; [done|].
  by rewrite IH, length_insert.
Qed.

Lemma test_mask_lookup n index i :
  i < n → test_mask n index !! i = Some (bool_decide (i ∈ index)).
Proof.
  intros Hi. unfold test_mask.
  by erewrite set_true_lookup by (by apply lookup_replicate_2).
Qed.

Lemma elem_of_masked_arange mask i :
  i ∈ masked_arange mask ↔ mask !! i = Some true.
Proof.
  unfold masked_arange. rewrite list_elem_of_filter, elem_of_seq.
  split; [by intros [? _]|]. intros Hi. split; [done|].
  apply lookup_lt_Some in Hi. lia.
Qed.

Lemma NoDup_masked_arange mask : NoDup (masked_arange mask).
Proof. apply NoDup_filter, NoDup_seq. Qed.

Lemma elem_of_valid_index n index i :
  i ∈ masked_arange (test_mask n index) ↔ i < n ∧ i ∈ index.
Proof.
  rewrite elem_of_masked_arange. split.
  - intros Hi. assert (i < n) as Hn.
    { apply lookup_lt_Some in Hi. by rewrite test_mask_length in Hi. }
    rewrite test_mask_lookup in Hi by done.
    split; [done|]. injection Hi as Hi. by apply bool_decide_eq_true in Hi.
  - intros [Hn Hi]. rewrite test_mask_lookup by done.
    by rewrite bool_decide_eq_true_2.
Qed.

Lemma elem_of_train_index n index i :
  i ∈ masked_arange (map negb (test_mask n index)) ↔ i < n ∧ i ∉ index.
Proof.
  rewrite elem_of_masked_arange. split.
  - intros Hi. assert (i < n) as Hn.
    { apply lookup_lt_Some in Hi.
      by rewrite length_map, test_mask_length in Hi. }
    split; [done|].
    change (map negb ?l) with (negb <$> l) in Hi.
    rewrite list_lookup_fmap, test_mask_lookup in Hi by done.
    simpl in Hi. injection Hi as Hi. apply negb_true_iff in Hi.
    by apply bool_decide_eq_false in Hi.
  - intros [Hn Hi]. change (map negb ?l) with (negb <$> l).
    rewrite list_lookup_fmap, test_mask_lookup by done.
    simpl. by rewrite bool_decide_eq_false_2.
Qed.

Lemma elem_of_concat {A} (ls : list (list A)) (x : A) :
  x ∈ concat ls ↔ ∃ l, l ∈ ls ∧ x ∈ l.
Proof.
  induction ls as [|l ls IH]; simpl.
  - split; [by intros ?%elem_of_nil|]. by intros (l & ?%elem_of_nil & _).
  - rewrite elem_of_app, IH. split.
    + intros [Hx|(l' & Hl' & Hx)].
      * exists l. split; [by left|done].
      * exists l'. split; [by right|done].
    + intros (l' & Hl' & Hx). apply elem_of_cons in Hl' as [->|Hl'].
      * by left.
      * right. by exists l'.
Qed.

(** An element of a duplicate-free concatenation lies in exactly one of the
    concatenated lists. *)
Lemma concat_unique_index {A} (ls : list (list A)) (x : A) :
  NoDup (concat ls) → x ∈ concat ls →
  ∃ j, (∃ l, ls !! j = Some l ∧ x ∈ l)
       ∧ ∀ j', (∃ l, ls !! j' = Some l ∧ x ∈ l) → j' = j.
Proof.
  induction ls as [|l ls IH]; simpl.
  - intros _ Hx. by apply elem_of_nil in Hx.
  - rewrite NoDup_app, elem_of_app. intros (Hl & Hdisj & Hls) [Hx|Hx].
    + exists 0. split; [by exists l|].
      intros [|j'] (l' & Hj' & Hx'); [done|]. simpl in Hj'.
      exfalso. apply (Hdisj x Hx). apply elem_of_concat.
      exists l'. split; [|done]. by eapply list_elem_of_lookup_2.
    + destruct (IH Hls Hx) as (j & Hj & Huniq).
      exists (S j). split; [done|].
      intros [|j'] (l' & Hj' & Hx').
      * simpl in Hj'. injection Hj' as <-. exfalso. by apply (Hdisj x Hx').
      * f_equal. apply Huniq. by exists l'.
Qed.

(** ** KFold.split *)

Section kfold_properties.
Variable shuffle : Z → list nat → list nat.
Hypothesis shuffle_permutation : ∀ seed l, shuffle seed l ≡ₚ l.

Lemma iter_test_indices_length k n :
  length (iter_test_indices shuffle k n) = k.
Proof.
  unfold iter_test_indices. by rewrite iter_folds_length, fold_sizes_length.
Qed.

Lemma iter_test_indices_concat k n :
  0 < k → concat (iter_test_indices shuffle k n) ≡ₚ seq 0 n.
Proof.
  intros Hk. unfold iter_test_indices.
  rewrite iter_folds_concat, fold_sizes_sum by done. simpl.
  rewrite take_ge; [apply shuffle_permutation|].
  unfold drop. by rewrite (Permutation_length (shuffle_permutation _ _)), length_seq.
Qed.

(** The pairs of position arrays yielded by [KFold.split]: one pair per
    fold, the test arrays being the folds cut from the shuffled positions. *)
Lemma KFold_split_folds (n_splits : Z) (n_samples : nat) :
  (2 ≤ n_splits)%Z → (n_splits ≤ Z.of_nat n_samples)%Z →
  ∃ tests : list (list nat),
    KFold_split shuffle n_splits n_samples
    = Ok (map (λ t, (masked_arange (map negb (test_mask n_samples t)),
                     masked_arange (test_mask n_samples t))) tests)
    ∧ length tests = Z.to_nat n_splits
    ∧ concat tests ≡ₚ seq 0 n_samples.
Proof.
  intros Hk Hn. exists (iter_test_indices shuffle (Z.to_nat n_splits) n_samples).
  split; [|split].
  - unfold KFold_split. by rewrite !decide_False by lia.
  - apply iter_test_indices_length.
  - apply iter_test_indices_concat. lia.
Qed.

Lemma KFold_split_partition (n_splits : Z) (n_samples : nat) :
  (2 ≤ n_splits)%Z → (n_splits ≤ Z.of_nat n_samples)%Z →
  ∃ pairs : list (list nat * list nat),
    KFold_split shuffle n_splits n_samples = Ok pairs
    ∧ length pairs = Z.to_nat n_splits
    ∧ Forall (λ '(train_index, valid_index),
                NoDup train_index ∧ NoDup valid_index
                ∧ (∀ i, i ∈ train_index → i ∉ valid_index)
                ∧ (∀ i, i < n_samples ↔ i ∈ train_index ∨ i ∈ valid_index))
             pairs
    ∧ ∀ i, i < n_samples →
        ∃ j, (∃ p, pairs !! j = Some p ∧ i ∈ p.2)
             ∧ ∀ j', (∃ p, pairs !! j' = Some p ∧ i ∈ p.2) → j' = j.
Proof.
  intros Hk Hn.
  destruct (KFold_split_folds n_splits n_samples Hk Hn)
    as (tests & Hsplit & Hlen & Hperm).
  eexists. split; [exact Hsplit|]. split; [by rewrite length_map|]. split.
  - apply Forall_map, Forall_forall. intros t _. simpl.
    split; [apply NoDup_masked_arange|]. split; [apply NoDup_masked_arange|].
    split.
    + intros i. rewrite elem_of_train_index, elem_of_valid_index.
      by intros [_ ?] [_ ?].
    + intros i. rewrite elem_of_train_index, elem_of_valid_index.
      destruct (decide (i ∈ t)); tauto.
  - intros i Hi.
    assert (NoDup (concat tests)) as Hnd.
    { rewrite Hperm. apply NoDup_seq. }
    assert (i ∈ concat tests) as Hin.
    { rewrite Hperm. apply elem_of_seq. lia. }
    destruct (concat_unique_index tests i Hnd Hin) as (j & (t & Hj & Hit) & Huniq).
    exists j. split.
    + eexists. change (map ?f ?l) with (f <$> l).
      rewrite list_lookup_fmap, Hj. split; [done|].
      simpl. by apply elem_of_valid_index.
    + intros j' (p & Hj' & Hip). apply Huniq.
      change (map ?f ?l) with (f <$> l) in Hj'.
      rewrite list_lookup_fmap in Hj'.
      destruct (tests !! j') as [t'|] eqn:Ht'; [|done].
      injection Hj' as <-. simpl in Hip.
      apply elem_of_valid_index in Hip as [_ Hip]. by exists t'.
Qed.
End kfold_properties.

(** ** ABSDataSplitter.k_fold *)

Section k_fold_properties.
Context {V : Type} `{EqDecision V}.
Variable shuffle : Z → list nat → list nat.
Hypothesis shuffle_permutation : ∀ seed l, shuffle seed l ≡ₚ l.

Lemma iloc_total (df : DataFrame V) (index : list nat) :
  (∀ i, i ∈ index → i < len df) → ∃ part, iloc df index = Ok part.
Proof.
  intros Hindex. unfold iloc.
  destruct (for_each_total
    (λ i, match rows df !! i with Some r => Ok r | None => Raise IndexError end)
    index) as [picked ->]; [|by eexists].
  apply Forall_forall. intros i Hi.
  destruct (lookup_lt_is_Some_2 (rows df) i (Hindex i Hi)) as [r ->].
  by eexists.
Qed.

Lemma Forall2_of_Forall {A B} (P : A → Prop) (Q R : A → B → Prop) l k :
  (∀ x y, P x → Q x y → R x y) → Forall P l → Forall2 Q l k → Forall2 R l k.
Proof.
  intros HR HP HQ. induction HQ as [|x y l k Hxy _ IH]; [constructor|].
  inversion HP; subst. constructor; [by apply HR|by apply IH].
Qed.

(** C1, for two folds or more: [k_fold] yields [n_splits] pairs; the pair
    number [j] holds the rows of [df] at the positions [train_index] and
    [valid_index] of the [j]-th pair of position arrays, which are disjoint
    and together are all the row positions of [df]; and every row position
    is a validation position of exactly one pair. *)
Theorem k_fold_partitions_rows (self : ABSDataSplitter) (df : DataFrame V) :
  (2 ≤ n_splits self)%Z → (n_splits self ≤ Z.of_nat (len df))%Z →
  ∃ (pairs : list (list nat * list nat))
    (folds : list (DataFrame V * DataFrame V)),
    k_fold shuffle self df = Ok folds
    ∧ length folds = Z.to_nat (n_splits self)
    ∧ Forall2 (λ '(train_index, valid_index) '(train, valid),
                 iloc df train_index = Ok train
                 ∧ iloc df valid_index = Ok valid
                 ∧ NoDup train_index ∧ NoDup valid_index
                 ∧ (∀ i, i ∈ train_index → i ∉ valid_index)
                 ∧ (∀ i, i < len df ↔ i ∈ train_index ∨ i ∈ valid_index))
              pairs folds
    ∧ ∀ i, i < len df →
        ∃ j, (∃ p, pairs !! j = Some p ∧ i ∈ p.2)
             ∧ ∀ j', (∃ p, pairs !! j' = Some p ∧ i ∈ p.2) → j' = j.
Proof.
  intros Hk Hn.
  destruct (KFold_split_partition shuffle shuffle_permutation
              (n_splits self) (len df) Hk Hn)
    as (pairs & Hsplit & Hlen & Hpairs & Hone).
  set (body := λ '(train_index, valid_index),
                 train ← iloc df train_index;
                 valid ← iloc df valid_index;
                 Ok (train, valid)).
  assert (∃ folds, for_each body pairs = Ok folds) as [folds Hfolds].
  { apply for_each_total. eapply Forall_impl; [exact Hpairs|].
    intros [train_index valid_index] (_ & _ & _ & Hcover). unfold body.
    destruct (iloc_total df train_index) as [train ->].
    { intros i Hi. apply Hcover. by left. }
    destruct (iloc_total df valid_index) as [valid ->].
    { intros i Hi. apply Hcover. by right. }
    by eexists. }
  exists pairs, folds. split; [|split; [|split]].
  - unfold k_fold. rewrite Hsplit. exact Hfolds.
  - apply for_each_length in Hfolds. by rewrite Hfolds.
  - apply for_each_Ok in Hfolds.
    eapply Forall2_of_Forall; [|exact Hpairs|exact Hfolds].
    intros [train_index valid_index] [train valid] (? & ? & ? & ?) Hbody.
    unfold body in Hbody.
    destruct (iloc df train_index) as [train'|]; [|done].
    destruct (iloc df valid_index) as [valid'|]; [|done].
    by injection Hbody as -> ->.
  - exact Hone.
Qed.
End k_fold_properties.

(** ** Masks, unique values and column access *)

Lemma select_lookup {A} (l : list A) (mask : list bool) i x :
  l !! i = Some x → mask !! i = Some true → x ∈ select l mask.
Proof.
  revert mask i. induction l as [|y l IH]; intros [|b mask] [|i]; simpl; try done.
  - intros [= ->] [= ->]. by left.
  - intros Hl Hm. destruct b; [right|]; by eapply IH.
Qed.

Lemma elem_of_select {A} (l : list A) (mask : list bool) x :
  x ∈ select l mask → ∃ i, l !! i = Some x ∧ mask !! i = Some true.
Proof.
  revert mask. induction l as [|y l IH]; intros [|b mask]; simpl;
    try by intros ?%elem_of_nil.
  destruct b.
  - intros [->|Hx]%elem_of_cons; [by exists 0|].
    destruct (IH _ Hx) as (i & ? & ?). by exists (S i).
  - intros Hx. destruct (IH _ Hx) as (i & ? & ?). by exists (S i).
Qed.

Lemma for_each_select {A B} (body : A → Result B) l ys mask :
  for_each body l = Ok ys →
  for_each body (select l mask) = Ok (select ys mask).
Proof.
  rewrite !for_each_Ok. intros Hl. revert mask.
  induction Hl as [|x y l ys Hxy _ IH]; intros [|b mask]; simpl;
    try constructor.
  destruct b; [constructor; [done|]|]; apply IH.
Qed.

Section column_properties.
Context {V : Type} `{EqDecision V}.
Implicit Types (df : DataFrame V) (series groups seen values picked : list V).

Lemma elem_of_unique_from seen values (v : V) :
  v ∈ unique_from seen values ↔ v ∈ values ∧ v ∉ seen.
Proof.
  revert seen. induction values as [|x values IH]; intros seen; simpl.
  - split; [by intros ?%elem_of_nil|]. by intros [?%elem_of_nil _].
  - destruct (decide (x ∈ seen)) as [Hx|Hx].
    + rewrite IH, elem_of_cons. split; [tauto|].
      intros [[->|?] ?]; tauto.
    + rewrite !elem_of_cons, IH, elem_of_cons. split.
      * intros [->|[? ?]]; tauto.
      * intros [[->|?] ?]; [by left|].
        destruct (decide (v = x)); tauto.
Qed.

Lemma NoDup_unique_from seen values : NoDup (unique_from seen values).
Proof.
  revert seen. induction values as [|x values IH]; intros seen; simpl.
  - constructor.
  - destruct (decide (x ∈ seen)); [apply IH|].
    constructor; [|apply IH].
    rewrite elem_of_unique_from, elem_of_cons. tauto.
Qed.

Lemma elem_of_unique values (v : V) : v ∈ unique values ↔ v ∈ values.
Proof.
  unfold unique. rewrite elem_of_unique_from.
  split; [tauto|]. intros ?. split; [done|]. apply not_elem_of_nil.
Qed.

Lemma take_positions_Ok groups (index : list nat) picked :
  take_positions groups index = Ok picked →
  ∀ g, g ∈ picked ↔ ∃ i, i ∈ index ∧ groups !! i = Some g.
Proof.
  unfold take_positions. rewrite for_each_Ok. intros Hpick g.
  induction Hpick as [|i y index picked Hi _ IH].
  - split; [by intros ?%elem_of_nil|]. by intros (? & ?%elem_of_nil & _).
  - destruct (groups !! i) as [y'|] eqn:Hgi; [|done]. injection Hi as ->.
    rewrite elem_of_cons, IH. split.
    + intros [->|(i' & ? & ?)].
      * exists i. split; [by left|done].
      * exists i'. split; [by right|done].
    + intros (i' & [->|?]%elem_of_cons & Hg).
      * left. congruence.
      * right. by exists i'.
Qed.

Lemma take_positions_total groups (index : list nat) :
  (∀ i, i ∈ index → i < length groups) →
  ∃ picked, take_positions groups index = Ok picked.
Proof.
  intros Hindex. apply for_each_total, Forall_forall. intros i Hi.
  destruct (lookup_lt_is_Some_2 groups i (Hindex i Hi)) as [g ->].
  by eexists.
Qed.

Lemma getitem_mask_series df col series mask :
  getitem df col = Ok series →
  getitem (getitem_mask df mask) col = Ok (select series mask).
Proof.
  unfold getitem. simpl.
  destruct (positions_of col (columns df)) as [|j [|]]; try done.
  apply for_each_select.
Qed.

Lemma isin_lookup series (values : list V) i :
  isin series values !! i = Some true ↔
  ∃ v, series !! i = Some v ∧ v ∈ values.
Proof.
  unfold isin. change (map ?f ?l) with (f <$> l). rewrite list_lookup_fmap.
  destruct (series !! i) as [v|]; simpl.
  - split.
    + intros [= Hv%bool_decide_eq_true]. by exists v.
    + intros (v' & [= <-] & Hv). by rewrite bool_decide_eq_true_2.
  - split; [done|]. by intros (? & ? & _).
Qed.

Lemma elem_of_select_isin series (values : list V) v :
  v ∈ select series (isin series values) ↔ v ∈ series ∧ v ∈ values.
Proof.
  split.
  - intros (i & Hi & Hm)%elem_of_select.
    apply isin_lookup in Hm as (v' & Hv' & Hin).
    split; [by eapply list_elem_of_lookup_2|congruence].
  - intros [(i & Hi)%list_elem_of_lookup_1 Hv].
    eapply select_lookup; [done|]. apply isin_lookup. by exists v.
Qed.
End column_properties.

(** ** ABSDataSplitter.group_k_fold *)

Lemma Forall_of_Forall2 {A B} (P : A → Prop) (Q : A → B → Prop)
    (R : B → Prop) l k :
  (∀ x y, P x → Q x y → R y) → Forall P l → Forall2 Q l k → Forall R k.
Proof.
  intros HR HP HQ. induction HQ as [|x y l k Hxy _ IH]; [constructor|].
  inversion HP; subst. constructor; [by eapply HR|by apply IH].
Qed.

Section group_k_fold_properties.
Context {V : Type} `{EqDecision V}.
Variable shuffle : Z → list nat → list nat.

(** What a successful [KFold.split] returns, whatever the shuffle does. *)
Lemma KFold_split_Ok (k : Z) (n_samples : nat) pairs :
  KFold_split shuffle k n_samples = Ok pairs →
  (2 ≤ k ≤ Z.of_nat n_samples)%Z
  ∧ length pairs = Z.to_nat k
  ∧ Forall (λ '(train_index, valid_index),
              (∀ i, i ∈ train_index → i < n_samples)
              ∧ (∀ i, i ∈ valid_index → i < n_samples)
              ∧ (∀ i, i ∈ train_index → i ∉ valid_index)) pairs.
Proof.
  unfold KFold_split.
  destruct (decide (k ≤ 1)%Z); [done|].
  destruct (decide (Z.of_nat n_samples < k)%Z); [done|].
  intros [= <-]. split; [lia|]. split.
  - by rewrite length_map, iter_test_indices_length.
  - apply Forall_map, Forall_forall. intros t _. simpl.
    repeat split; intros i.
    + by intros [? _]%elem_of_train_index.
    + by intros [? _]%elem_of_valid_index.
    + by intros [_ ?]%elem_of_train_index [_ ?]%elem_of_valid_index.
Qed.

Lemma KFold_split_total (k : Z) (n_samples : nat) :
  (2 ≤ k ≤ Z.of_nat n_samples)%Z →
  ∃ pairs, KFold_split shuffle k n_samples = Ok pairs.
Proof.
  intros Hk. unfold KFold_split. rewrite !decide_False by lia. by eexists.
Qed.

(** C2: when [group_col] selects a column of [df] with at least [n_splits]
    distinct values, every yielded pair is cut along two disjoint sets of
    groups: no group value occurs in both frames, and each frame holds
    exactly the rows of [df] whose group value belongs to its set, so that
    every row of a validation group is in the validation frame.  With two
    splits or more the generator does yield [n_splits] pairs. *)
Theorem group_k_fold_keeps_groups_together (self : ABSDataSplitter)
    (df : DataFrame V) (group_col : string) (series : list V) :
  getitem df group_col = Ok series →
  (n_splits self ≤ Z.of_nat (length (unique series)))%Z →
  ((2 ≤ n_splits self)%Z →
     ∃ folds, group_k_fold shuffle self df group_col = Ok folds
              ∧ length folds = Z.to_nat (n_splits self))
  ∧ ∀ folds, group_k_fold shuffle self df group_col = Ok folds →
      Forall (λ '(train, valid),
        ∃ train_groups valid_groups train_values valid_values,
          getitem train group_col = Ok train_values
          ∧ getitem valid group_col = Ok valid_values
          ∧ (∀ g, g ∈ train_values → g ∉ valid_values)
          ∧ (∀ g, g ∈ train_values ↔ g ∈ train_groups)
          ∧ (∀ g, g ∈ valid_values ↔ g ∈ valid_groups)
          ∧ rows train = select (rows df) (isin series train_groups)
          ∧ rows valid = select (rows df) (isin series valid_groups)
          ∧ (∀ i r g, rows df !! i = Some r → series !! i = Some g →
                      g ∈ valid_groups → r ∈ rows valid)
          ∧ (∀ i r g, rows df !! i = Some r → series !! i = Some g →
                      g ∈ train_groups → r ∈ rows train)) folds.
Proof.
  intros Hseries Hn.
  set (groups := unique series) in *.
  set (body := λ '(train_index, valid_index),
         train_groups ← take_positions groups train_index;
         valid_groups ← take_positions groups valid_index;
         Ok (getitem_mask df (isin series train_groups),
             getitem_mask df (isin series valid_groups))).
  assert (∀ folds, group_k_fold shuffle self df group_col = Ok folds ↔
            ∃ pairs, KFold_split shuffle (n_splits self) (length groups)
                     = Ok pairs ∧ for_each body pairs = Ok folds) as Hunfold.
  { intros folds. unfold group_k_fold. rewrite Hseries. simpl.
    fold groups.
    destruct (KFold_split shuffle (n_splits self) (length groups))
      as [pairs|e]; simpl.
    - split; [by exists pairs|]. by intros (? & [= <-] & ?).
    - split; [done|]. by intros (? & ? & _). }
  split.
  - intros Hk.
    destruct (KFold_split_total (n_splits self) (length groups))
      as [pairs Hpairs]; [lia|].
    destruct (KFold_split_Ok _ _ _ Hpairs) as (_ & Hlen & Hall).
    assert (∃ folds, for_each body pairs = Ok folds) as [folds Hfolds].
    { apply for_each_total. eapply Forall_impl; [exact Hall|].
      intros [train_index valid_index] (Htrain & Hvalid & _). unfold body.
      destruct (take_positions_total groups train_index Htrain) as [? ->].
      destruct (take_positions_total groups valid_index Hvalid) as [? ->].
      by eexists. }
    exists folds. split; [apply Hunfold; by exists pairs|].
    apply for_each_length in Hfolds. by rewrite Hfolds.
  - intros folds (pairs & Hpairs & Hfolds)%Hunfold.
    destruct (KFold_split_Ok _ _ _ Hpairs) as (_ & _ & Hall).
    apply for_each_Ok in Hfolds.
    eapply Forall_of_Forall2; [|exact Hall|exact Hfolds].
    intros [train_index valid_index] [train valid] (_ & _ & Hdisj) Hbody.
    unfold body in Hbody.
    destruct (take_positions groups train_index) as [train_groups|] eqn:Htg;
      [|done].
    destruct (take_positions groups valid_index) as [valid_groups|] eqn:Hvg;
      [|done].
    simpl in Hbody. injection Hbody as <- <-.
    pose proof (take_positions_Ok _ _ _ Htg) as Htg'.
    pose proof (take_positions_Ok _ _ _ Hvg) as Hvg'.
    assert (∀ g, g ∈ train_groups → g ∉ valid_groups) as Hgroups.
    { intros g (i & Hi & Hgi)%Htg' (i' & Hi' & Hgi')%Hvg'.
      assert (i = i') as <-.
      { eapply NoDup_lookup; [apply (NoDup_unique_from [] series)|done..]. }
      by apply (Hdisj i). }
    assert (∀ gs g, (∀ g, g ∈ gs → ∃ i, groups !! i = Some g) →
              g ∈ select series (isin series gs) ↔ g ∈ gs) as Hvalues.
    { intros gs g Hgs. rewrite elem_of_select_isin. split; [tauto|].
      intros Hg. split; [|done]. destruct (Hgs g Hg) as [i Hi].
      apply elem_of_unique. by eapply list_elem_of_lookup_2. }
    assert (∀ g, g ∈ select series (isin series train_groups)
              ↔ g ∈ train_groups) as Htv.
    { intros g. apply Hvalues. intros g' (i & _ & ?)%Htg'. by exists i. }
    assert (∀ g, g ∈ select series (isin series valid_groups)
              ↔ g ∈ valid_groups) as Hvv.
    { intros g. apply Hvalues. intros g' (i & _ & ?)%Hvg'. by exists i. }
    exists train_groups, valid_groups.
    exists (select series (isin series train_groups)).
    exists (select series (isin series valid_groups)).
    split; [by apply getitem_mask_series|].
    split; [by apply getitem_mask_series|].
    split. { intros g ?%Htv ?%Hvv. by apply (Hgroups g). }
    do 4 (split; [done|]).
    split; intros i r g Hr Hg Hin; simpl;
      (eapply select_lookup; [done|]); apply isin_lookup; by exists g.
Qed.
End group_k_fold_properties.

(** ** ABSSubmitter.get_metrics *)

Section metrics_properties.
Local Open Scope R_scope.

Lemma np_sum_total (a : list R) : np_sum a = total a.
Proof. induction a as [|x a IH]; simpl; [done|]. by rewrite <- IH. Qed.

Lemma np_mean_arithmetic_mean (a : list R) : np_mean a = arithmetic_mean a.
Proof. unfold np_mean, arithmetic_mean. by rewrite np_sum_total. Qed.

Lemma total_squared_deviations (a : list R) (m : R) :
  total (map (λ x, (Rabs (x - m))²) a) = total (map (λ x, (x - m) * (x - m)) a).
Proof.
  induction a as [|x a IH]; simpl; [done|].
  rewrite IH, <- Rsqr_abs. done.
Qed.

Lemma np_std_population_std (a : list R) : np_std a = population_std a.
Proof.
  unfold np_std, population_std, population_variance.
  rewrite !np_mean_arithmetic_mean. unfold arithmetic_mean at 1.
  by rewrite total_squared_deviations, !length_map.
Qed.

Lemma population_std_nonneg (xs : list R) : 0 <= population_std xs.
Proof. apply sqrt_pos. Qed.

End metrics_properties.

(** ** The monad of stateful computations *)

Section py_laws.
Context {S : Type}.

Lemma Py_bind_ret_l {A B} (a : A) (k : A → Py S B) (s : S) :
  (mret a ≫= k) s = k a s.
Proof. done. Qed.

Lemma Py_bind_ret_r {A} (m : Py S A) (s : S) : (m ≫= mret) s = m s.
Proof.
  unfold mbind, Py_bind, mret, Py_ret. by destruct (m s) as [s' [a|e]].
Qed.

Lemma Py_bind_assoc {A B C} (m : Py S A) (k : A → Py S B) (h : B → Py S C)
    (s : S) :
  ((m ≫= k) ≫= h) s = (m ≫= λ a, k a ≫= h) s.
Proof.
  unfold mbind, Py_bind. by destruct (m s) as [s' [a|e]].
Qed.

Lemma Py_bind_ext {A B} (m m' : Py S A) (k k' : A → Py S B) (s : S) :
  m s = m' s → (∀ a s', k a s' = k' a s') → (m ≫= k) s = (m' ≫= k') s.
Proof.
  intros Hm Hk. unfold mbind, Py_bind. rewrite Hm.
  by destruct (m' s) as [s' [a|e]].
Qed.

Lemma Py_bind_Ok {A B} (m : Py S A) (k : A → Py S B) s s' a :
  m s = (s', Ok a) → (m ≫= k) s = k a s'.
Proof. intros Hm. unfold mbind, Py_bind. by rewrite Hm. Qed.

Lemma Py_bind_Raise {A B} (m : Py S A) (k : A → Py S B) s s' e :
  m s = (s', Raise e) → (m ≫= k) s = (s', Raise e).
Proof. intros Hm. unfold mbind, Py_bind. by rewrite Hm. Qed.
End py_laws.

(** ** init_preprocessor *)

Section init_preprocessor_properties.
Context {V : Type} {S : Type}.
Implicit Types (df : DataFrame V) (s : S).

Lemma nested_application_snoc
    (outer : list (DataFrame V → Py S (DataFrame V))) p df s :
  nested_application (outer ++ [p]) df s
  = (p df ≫= nested_application outer) s.
Proof.
  revert s. induction outer as [|q outer IH]; intros s; simpl.
  - by rewrite Py_bind_ret_l, Py_bind_ret_r.
  - rewrite <- Py_bind_assoc. by apply Py_bind_ext.
Qed.

(** C10: the function made by [init_preprocessor] from [p1, ..., pn] runs
    like the nested application [pn(...(p1(df)))], in every state; made from
    no processor it returns its argument; and for processors that are plain
    functions it returns the value of the nested application. *)
Theorem init_preprocessor_composes
    (args : list (DataFrame V → Py S (DataFrame V))) df s :
  init_preprocessor args df s = nested_application (reverse args) df s
  ∧ init_preprocessor (S:=S) [] df s = (s, Ok df)
  ∧ ∀ fs : list (DataFrame V → DataFrame V),
      init_preprocessor (map (λ f d, mret (f d)) fs) df s
      = (s, Ok (foldr (λ f x, f x) df (reverse fs))).
Proof.
  split; [|split].
  - unfold init_preprocessor. revert df s.
    induction args as [|p args IH]; intros df s; simpl; [done|].
    rewrite reverse_cons, nested_application_snoc.
    by apply Py_bind_ext.
  - done.
  - intros fs. unfold init_preprocessor. revert df.
    induction fs as [|f fs IH]; intros df; simpl; [done|].
    rewrite Py_bind_ret_l, IH, reverse_cons, foldr_app. done.
Qed.
End init_preprocessor_properties.

(** ** The contract methods *)

(** C6: every placeholder raises NotImplementedError, whatever its
    arguments and the state, and leaves the state alone; so do the calls
    that reach a placeholder through an instance of the base class. *)
Theorem placeholders_raise_NotImplementedError {V W S : Type} :
  (∀ (df : DataFrame V) (s : S),
     ABSCallable_main df s = (s, Raise NotImplementedError))
  ∧ (∀ (dry_run : bool) (s : S),
       ABSDataFetcher_main (V:=V) dry_run s = (s, Raise NotImplementedError))
  ∧ (∀ (df : DataFrame V) (s : S),
       ABSDataSplitter_train_test_split df s
       = (s, Raise NotImplementedError))
  ∧ (∀ (df : DataFrame V) (s : S),
       ABSDataSplitter_cv_split df s = (s, Raise NotImplementedError))
  ∧ (∀ (sub : DataFrame V) (s : S),
       ABSSubmitter_validate_submit_data sub s
       = (s, Raise NotImplementedError))
  ∧ (∀ (test sub : DataFrame V) (proba : bool) (s : S),
       CodeSubmitter_estimate test sub proba s
       = (s, Raise NotImplementedError))
  ∧ (∀ (A : Type) (s : S),
       get_mock_api (A:=A) s = (s, Raise NotImplementedError))
  ∧ (∀ (df : DataFrame V) (w : W),
       ABSCallable_call ABSCallable_base df w
       = (w, Raise NotImplementedError))
  ∧ (∀ (df : DataFrame V) (w : W),
       ABSCallable_call ABSDataPreprocessor_base df w
       = (w, Raise NotImplementedError))
  ∧ (∀ (dry_run : bool) (w : W),
       ABSDataFetcher_call (V:=V) ABSDataFetcher_base dry_run w
       = (w, Raise NotImplementedError))
  ∧ (∀ (n : Z) (df : DataFrame V) (w : W),
       train_test_split (ABSDataSplitter_base n) df w
       = (w, Raise NotImplementedError))
  ∧ (∀ (n : Z) (df : DataFrame V) (w : W),
       cv_split (ABSDataSplitter_base n) df w
       = (w, Raise NotImplementedError))
  ∧ (∀ (sub : DataFrame V) (w : W),
       cls_validate_submit_data ABSSubmitter_class sub w
       = (w, Raise NotImplementedError)).
Proof. repeat split. Qed.

(** ** Column labels *)

Section label_properties.
Context {V : Type} `{EqDecision V}.
Implicit Types (df sub : DataFrame V) (col : string).

Lemma elem_of_positions_of col (cols : list string) j :
  j ∈ positions_of col cols ↔ cols !! j = Some col.
Proof.
  unfold positions_of. rewrite list_elem_of_filter, elem_of_seq.
  split; [by intros [? _]|]. intros Hj. split; [done|].
  apply lookup_lt_Some in Hj. lia.
Qed.

Lemma drop_columns_contains df col :
  contains df col = true →
  ∃ js, drop_columns df col
        = Ok (mkDataFrame (filter (λ c, c ≠ col) (columns df))
                          (map (drop_cells js) (rows df))).
Proof.
  unfold contains, drop_columns. intros Hcol%bool_decide_eq_true.
  apply list_elem_of_lookup_1 in Hcol as [j Hj].
  apply elem_of_positions_of in Hj.
  destruct (positions_of col (columns df)) as [|j' js].
  - by apply elem_of_nil in Hj.
  - by eexists.
Qed.

Lemma filter_absent col (cols : list string) :
  col ∉ cols → filter (λ c, c ≠ col) cols = cols.
Proof.
  induction cols as [|c cols IH]; [done|].
  rewrite not_elem_of_cons. intros [Hne Hcol].
  rewrite filter_cons_True by done. by rewrite IH.
Qed.
End label_properties.

(** ** ABSSubmitter.get_submit_data *)

Section get_submit_data_properties.
Context {V : Type} `{EqDecision V} {W Submissions : Type}.
Implicit Types (self : ABSSubmitter V W Submissions).

(** The labels of the returned frame, from those of the estimate output. *)
Lemma relabelled_columns (target : string) (cols : list string) :
  let cols' := map (λ c, if decide (c = "pred") then target else c)
                   (filter (λ c, c ≠ target) cols) in
  ("pred" ∉ cols') ∧ (target ∈ cols' ↔ "pred" ∈ cols ∧ target ≠ "pred").
Proof.
  simpl. change (map ?f ?l) with (f <$> l). split.
  - intros (c & Hc & [Hne _]%list_elem_of_filter)%list_elem_of_fmap.
    destruct (decide (c = "pred")); congruence.
  - split.
    + intros (c & Hc & [Hne Hin]%list_elem_of_filter)%list_elem_of_fmap.
      destruct (decide (c = "pred")); [|congruence]. subst c. done.
    + intros [Hpred Hne]. apply list_elem_of_fmap. exists "pred".
      split; [by rewrite decide_True|].
      apply list_elem_of_filter. split; [congruence|done].
Qed.

End get_submit_data_properties.

(** ** Raised and suppressed exceptions *)

Lemma try_except_escapes {S A} (body : Py S A) (catches : exn → bool)
    (a : A) s s' e :
  try_except body catches (mret a) s = (s', Raise e) → catches e = false.
Proof.
  unfold try_except. destruct (body s) as [s1 [x|e1]]; [done|].
  destruct (catches e1) eqn:Hcatch; [done|]. by intros [= _ <-].
Qed.

Lemma is_OSError_false e : is_OSError e = false ↔ e ≠ OSError.
Proof. by destruct e. Qed.

Section error_handling.
Context {V : Type} `{EqDecision V} {W Submissions : Type}.
Variable lib : Libraries V W Submissions.
Implicit Types (s : World W (Event V W Submissions)).

Lemma _init_kaggle_api_never_OSError s s' e :
  _init_kaggle_api lib s = (s', Raise e) → e ≠ OSError.
Proof.
  intros Hrun. apply is_OSError_false.
  by eapply try_except_escapes.
Qed.

Lemma _init_dir_never_OSError (self : ABSDataPostprocessor) s s' e :
  _init_dir lib self s = (s', Raise e) → e ≠ OSError.
Proof.
  intros Hrun. apply is_OSError_false.
  by eapply try_except_escapes.
Qed.

(** C4, as the code has it.  The placeholders raise NotImplementedError,
    and the module raises ValueError besides: [ABSSubmitter.__init__] does so, before any call into foreign
    code, when the class leaves [competition_name] or [experiment_name]
    empty, as the base class does; with both names set, it fails only with
    what the construction of the API client raises, OSError excepted.
    OSError is suppressed at two places: in [_init_kaggle_api], which then
    returns None, and in [_init_dir], which then returns normally; no
    OSError escapes either of them.  An ImportError of the first import of
    mlutil is suppressed as well: the imports from mymodules.mlutil run
    instead. *)
Theorem raised_and_suppressed_exceptions :
  (∀ (df test sub : DataFrame V) (dry_run proba : bool) s,
     ABSCallable_main df s = (s, Raise NotImplementedError)
     ∧ ABSDataFetcher_main (V:=V) dry_run s = (s, Raise NotImplementedError)
     ∧ ABSDataPostprocessor_main df s = (s, Raise NotImplementedError)
     ∧ ABSDataSplitter_train_test_split df s
       = (s, Raise NotImplementedError)
     ∧ ABSDataSplitter_cv_split df s = (s, Raise NotImplementedError)
     ∧ ABSSubmitter_validate_submit_data sub s
       = (s, Raise NotImplementedError)
     ∧ CodeSubmitter_estimate test sub proba s
       = (s, Raise NotImplementedError)
     ∧ get_mock_api (A:=unit) s = (s, Raise NotImplementedError))
  ∧ (∀ cls fetcher preprocessor features splitter mdl comment s,
     cls_competition_name cls = "" ∨ cls_experiment_name cls = "" →
     ABSSubmitter_init lib cls fetcher preprocessor features splitter mdl
       comment s = (s, Raise ValueError))
  ∧ (∀ fetcher preprocessor features splitter mdl comment s,
       ABSSubmitter_init lib ABSSubmitter_class fetcher preprocessor features
         splitter mdl comment s = (s, Raise ValueError))
  ∧ (∀ cls fetcher preprocessor features splitter mdl comment s s' e,
       cls_competition_name cls ≠ "" → cls_experiment_name cls ≠ "" →
       ABSSubmitter_init lib cls fetcher preprocessor features splitter mdl
         comment s = (s', Raise e) →
       e ≠ OSError ∧ _init_kaggle_api lib s = (s', Raise e))
  ∧ (∀ s s' e, _init_kaggle_api lib s = (s', Raise e) → e ≠ OSError)
  ∧ (∀ s w,
       KaggleApi_new lib (outside s) = (w, Raise OSError) →
       _init_kaggle_api lib s
       = (mkWorld w (trace s ++ [EvKaggleApi (Raise OSError)]), Ok None))
  ∧ (∀ s w a w',
       KaggleApi_new lib (outside s) = (w, Ok a) →
       authenticate a w = (w', Raise OSError) →
       _init_kaggle_api lib s
       = (mkWorld w' (trace s ++ [EvKaggleApi (Ok a)]
                              ++ [EvAuthenticate (Raise OSError)]), Ok None))
  ∧ (∀ s w,
       import_module lib "mlutil.features" (outside s)
       = (w, Raise ImportError) →
       module_imports lib s
       = import_mlutil lib "mymodules.mlutil"
           (mkWorld w (trace s
                       ++ [EvImport "mlutil.features" (Raise ImportError)])))
  ∧ (∀ self s s' e, _init_dir lib self s = (s', Raise e) → e ≠ OSError)
  ∧ (∀ dir s w,
       os_path_exists lib dir (outside s) = (w, Raise OSError) →
       _init_dir lib {| save_dir := Some dir |} s
       = (mkWorld w (trace s ++ [EvPathExists dir (Raise OSError)]), Ok ()))
  ∧ (∀ dir s w w',
       os_path_exists lib dir (outside s) = (w, Ok false) →
       os_makedirs lib dir w = (w', Raise OSError) →
       _init_dir lib {| save_dir := Some dir |} s
       = (mkWorld w' (trace s ++ [EvPathExists dir (Ok false)]
                              ++ [EvMakedirs dir (Raise OSError)]), Ok ())).
Proof.
  split; [done|].
  split; [|split; [|split; [|split; [|split; [|split; [|split; [|split;
    [|split]]]]]]]].
  - intros cls ? ? ? ? ? ? s [Hname|Hname]; unfold ABSSubmitter_init.
    + by rewrite Hname.
    + rewrite Hname. by destruct (bool_decide (cls_competition_name cls = "")).
  - done.
  - intros cls ? ? ? ? ? ? s s' e Hc He. unfold ABSSubmitter_init.
    rewrite !bool_decide_eq_false_2 by done.
    unfold mbind, Py_bind.
    destruct (_init_kaggle_api lib s) as [s1 [a|e1]] eqn:Hapi; [done|].
    intros [= <- <-]. split; [|done].
    by eapply _init_kaggle_api_never_OSError.
  - apply _init_kaggle_api_never_OSError.
  - intros s w Hnew. unfold _init_kaggle_api, try_except, mbind, Py_bind, call.
    by rewrite Hnew.
  - intros s w a w' Hnew Hauth.
    unfold _init_kaggle_api, try_except, mbind, Py_bind, call.
    rewrite Hnew. simpl. rewrite Hauth. simpl. by rewrite <- app_assoc.
  - intros s w Himport.
    unfold module_imports, try_except, import_mlutil at 1, mbind, Py_bind,
      call.
    change ("mlutil" +:+ ".features") with "mlutil.features".
    by rewrite Himport.
  - apply _init_dir_never_OSError.
  - intros dir s w Hexists. unfold _init_dir, try_except, mbind, Py_bind, call.
    simpl. by rewrite Hexists.
  - intros dir s w w' Hexists Hmake.
    unfold _init_dir, try_except, mbind, Py_bind, call.
    simpl. rewrite Hexists. simpl. rewrite Hmake. simpl.
    by rewrite <- app_assoc.
Qed.
End error_handling.

(** ** What a computation adds to the trace *)

Section emits_rules.
Context {W Ev : Type} (P : Ev → Prop).
Implicit Types (s : World W Ev).

Lemma emits_ret {A} (a : A) : emits (W:=W) P (mret a).
Proof. intros s. exists []. by rewrite app_nil_r. Qed.

Lemma emits_raise {A} e : emits (W:=W) (A:=A) P (raise e).
Proof. intros s. exists []. by rewrite app_nil_r. Qed.

Lemma emits_lift {A} (r : Result A) : emits (W:=W) P (lift r).
Proof. intros s. exists []. by rewrite app_nil_r. Qed.

Lemma emits_call {A} (ev : Result A → Ev) (f : Py W A) :
  (∀ r, P (ev r)) → emits P (call ev f).
Proof.
  intros Hev s. unfold call. destruct (f (outside s)) as [w r].
  exists [ev r]. split; [done|]. by constructor.
Qed.

Lemma emits_bind {A B} (m : Py (World W Ev) A) (k : A → Py (World W Ev) B) :
  emits P m → (∀ a, emits P (k a)) → emits P (m ≫= k).
Proof.
  intros Hm Hk s. destruct (Hm s) as (t & Ht & HP).
  unfold mbind, Py_bind. destruct (m s) as [s1 [a|e]]; simpl in *.
  - destruct (Hk a s1) as (t' & Ht' & HP'). exists (t ++ t').
    split; [by rewrite Ht', Ht, app_assoc|]. by apply Forall_app.
  - by exists t.
Qed.
End emits_rules.

(** ** CodeSubmitter.experiment *)

Section experiment_properties.
Context {V : Type} `{EqDecision V} {W Submissions : Type}.
Variable lib : Libraries V W Submissions.
Implicit Types (self : ABSSubmitter V W Submissions).
Implicit Types (s : World W (Event V W Submissions)).

Lemma process_data_does_not_train self dry_run :
  emits (λ ev, is_training_event ev = false) (process_data self dry_run).
Proof.
  unfold process_data, _process_data.
  apply emits_bind; [by apply emits_call|]. intros cached.
  apply emits_bind.
  { destruct cached; [by apply emits_call|].
    repeat (apply emits_bind; [by apply emits_call|]; intros ?).
    apply emits_ret. }
  intros data.
  repeat (apply emits_bind; [by apply emits_call|]; intros ?).
  apply emits_ret.
Qed.

(** The keyword [features] cannot be bound to a parameter of
    [_train_and_evaluate]. *)
Lemma features_keyword_unbound (df : DataFrame V) (retrain_all_data : bool) :
  bind_arguments _train_and_evaluate_signature []
    [("features", VFrame df); ("retrain_all_data", VBool retrain_all_data)]
  = Raise TypeError.
Proof. reflexivity. Qed.

(** C5, as the code has it: [experiment] never trains and never returns
    normally.  When [process_data] returns, the call of
    [_train_and_evaluate] with the keyword [features], which is none of its
    parameters train, retrain_all_data and save_model, raises TypeError
    before its body runs; when [process_data] raises, that exception is the
    one that leaves [experiment]. *)
Theorem experiment_raises_before_training self
    (params_info : gmap string string)
    (retrain_all_data dry_run return_only : bool) s :
  let run := experiment lib self params_info retrain_all_data dry_run
               return_only s in
  (∃ e, run.2 = Raise e)
  ∧ (∃ t, trace run.1 = trace s ++ t
          ∧ Forall (λ ev, is_training_event ev = false) t)
  ∧ (∀ s1 df, process_data self dry_run s = (s1, Ok df) →
              run = (s1, Raise TypeError))
  ∧ (∀ s1 e, process_data self dry_run s = (s1, Raise e) →
             run = (s1, Raise e))
  ∧ (_train_and_evaluate_signature (V:=V)).*1
    = ["train"; "retrain_all_data"; "save_model"].
Proof.
  intros run.
  assert (∀ s1 df, process_data self dry_run s = (s1, Ok df) →
                   run = (s1, Raise TypeError)) as Hok.
  { intros s1 df Hdata. unfold run, experiment.
    erewrite Py_bind_Ok by exact Hdata.
    unfold _train_and_evaluate.
    erewrite Py_bind_Raise; [done|].
    erewrite Py_bind_Raise; [done|].
    unfold lift. by rewrite features_keyword_unbound. }
  assert (∀ s1 e, process_data self dry_run s = (s1, Raise e) →
                  run = (s1, Raise e)) as Hraise.
  { intros s1 e Hdata. unfold run, experiment.
    by erewrite Py_bind_Raise by exact Hdata. }
  split; [|split; [|split; [done|split; [done|done]]]].
  - destruct (process_data self dry_run s) as [s1 [df|e]] eqn:Hdata.
    + rewrite (Hok _ _ eq_refl). by eexists.
    + rewrite (Hraise _ _ eq_refl). by eexists.
  - destruct (process_data_does_not_train self dry_run s) as (t & Ht & HP).
    exists t. split; [|done]. rewrite <- Ht.
    destruct (process_data self dry_run s) as [s1 [df|e]] eqn:Hdata.
    + by rewrite (Hok _ _ eq_refl).
    + by rewrite (Hraise _ _ eq_refl).
Qed.
End experiment_properties.

(** ** Runs that return normally *)

Lemma bind_Ok_inv {S A B} (m : Py S A) (k : A → Py S B) s s' b :
  (m ≫= k) s = (s', Ok b) → ∃ s1 a, m s = (s1, Ok a) ∧ k a s1 = (s', Ok b).
Proof.
  unfold mbind, Py_bind. destruct (m s) as [s1 [a|e]]; [|done].
  intros Hk. by exists s1, a.
Qed.

Lemma call_Ok_inv {W Ev A} (ev : Result A → Ev) (f : Py W A) s s' a :
  call ev f s = (s', Ok a) →
  ∃ w, f (outside s) = (w, Ok a) ∧ s' = mkWorld w (trace s ++ [ev (Ok a)]).
Proof.
  unfold call. destruct (f (outside s)) as [w [a'|e]]; [|done].
  intros [= <- <-]. by exists w.
Qed.

Lemma ret_Ok_inv {S A} (a b : A) (s s' : S) :
  (mret a : Py S A) s = (s', Ok b) → s' = s ∧ b = a.
Proof. by intros [= <- <-]. Qed.

Section make_submission_properties.
Context {V : Type} `{EqDecision V} {W Submissions : Type}.
Variable lib : Libraries V W Submissions.
Implicit Types (self : ABSSubmitter V W Submissions).
Implicit Types (s : World W (Event V W Submissions)).
Implicit Types (data train test sub : DataFrame V).

Lemma process_data_Ok self dry_run s s' data :
  process_data self dry_run s = (s', Ok data) →
  ∃ t_data cols,
    trace s' = trace s ++ t_data
               ++ [EvDelFeatures (Ok ()); EvGetCatCols (Ok cols);
                   EvSetCategoricalColumns cols (Ok ())]
    ∧ (t_data = [EvLoadFeatures (Ok true); EvGetFeatures (Ok data)]
       ∨ ∃ d1 d2,
           t_data = [EvLoadFeatures (Ok false); EvFetch dry_run (Ok d1);
                     EvPreprocess d1 (Ok d2);
                     EvGenerateFeatures d2 (Ok data)]).
Proof.
  unfold process_data. intros Hrun.
  apply bind_Ok_inv in Hrun as (s1 & cached & Hload & Hrun).
  apply call_Ok_inv in Hload as (w1 & _ & ->).
  apply bind_Ok_inv in Hrun as (s2 & data' & Hdata & Hrun).
  apply bind_Ok_inv in Hrun as (s3 & [] & Hdel & Hrun).
  apply call_Ok_inv in Hdel as (w3 & _ & ->).
  apply bind_Ok_inv in Hrun as (s4 & cols & Hcols & Hrun).
  apply call_Ok_inv in Hcols as (w4 & _ & ->).
  apply bind_Ok_inv in Hrun as (s5 & [] & Hset & Hrun).
  apply call_Ok_inv in Hset as (w5 & _ & ->).
  apply ret_Ok_inv in Hrun as [-> ->]. simpl.
  destruct cached.
  - apply call_Ok_inv in Hdata as (w2 & _ & ->). simpl.
    exists [EvLoadFeatures (Ok true); EvGetFeatures (Ok data')], cols.
    split; [|by left]. by rewrite <- !app_assoc.
  - unfold _process_data in Hdata.
    apply bind_Ok_inv in Hdata as (s6 & d1 & Hfetch & Hdata).
    apply call_Ok_inv in Hfetch as (w6 & _ & ->).
    apply bind_Ok_inv in Hdata as (s7 & d2 & Hpre & Hdata).
    apply call_Ok_inv in Hpre as (w7 & _ & ->).
    apply bind_Ok_inv in Hdata as (s8 & d3 & Hgen & Hdata).
    apply call_Ok_inv in Hgen as (w8 & _ & ->).
    apply ret_Ok_inv in Hdata as [-> ->]. simpl.
    exists [EvLoadFeatures (Ok false); EvFetch dry_run (Ok d1);
            EvPreprocess d1 (Ok d2); EvGenerateFeatures d2 (Ok d3)], cols.
    split; [|right; by exists d1, d2]. by rewrite <- !app_assoc.
Qed.

Lemma _train_and_evaluate_binds self train (retrain_all_data save_model : bool)
    s :
  _train_and_evaluate self [VFrame train]
    [("retrain_all_data", VBool retrain_all_data);
     ("save_model", VBool save_model)] s
  = _train_and_evaluate_body self train retrain_all_data save_model s.
Proof. reflexivity. Qed.

Lemma _train_and_evaluate_body_Ok self train
    (retrain_all_data save_model : bool) s s' res :
  _train_and_evaluate_body self train retrain_all_data save_model s
  = (s', Ok res) →
  ∃ cols folds,
    trace s' = trace s
               ++ [EvGetCatCols (Ok cols);
                   EvSetCategoricalColumns cols (Ok ());
                   EvCvSplit train (Ok folds);
                   EvCv folds (save_model && negb retrain_all_data) (Ok res)]
               ++ (if retrain_all_data
                   then [EvFit train save_model (Ok ())] else []).
Proof.
  unfold _train_and_evaluate_body. intros Hrun.
  apply bind_Ok_inv in Hrun as (s1 & cols & Hcols & Hrun).
  apply call_Ok_inv in Hcols as (w1 & _ & ->).
  apply bind_Ok_inv in Hrun as (s2 & [] & Hset & Hrun).
  apply call_Ok_inv in Hset as (w2 & _ & ->).
  apply bind_Ok_inv in Hrun as (s3 & folds & Hsplit & Hrun).
  apply call_Ok_inv in Hsplit as (w3 & _ & ->).
  apply bind_Ok_inv in Hrun as (s4 & res' & Hcv & Hrun).
  apply call_Ok_inv in Hcv as (w4 & _ & ->).
  apply bind_Ok_inv in Hrun as (s5 & [] & Hfit & Hrun).
  apply ret_Ok_inv in Hrun as [-> ->].
  exists cols, folds. destruct retrain_all_data.
  - apply call_Ok_inv in Hfit as (w5 & _ & ->). simpl.
    by rewrite <- !app_assoc.
  - apply ret_Ok_inv in Hfit as [-> _]. simpl.
    by rewrite <- !app_assoc.
Qed.

Lemma get_submit_data_Ok self test s s' sub :
  get_submit_data self test s = (s', Ok sub) →
  ∃ sub0,
    trace s' = trace s ++ [EvEstimate test (Ok sub0)]
    ∧ columns sub
      = map (λ c, if decide (c = "pred") then target_col (model self) else c)
            (filter (λ c, c ≠ target_col (model self)) (columns sub0)).
Proof.
  unfold get_submit_data. intros Hrun.
  apply bind_Ok_inv in Hrun as (s1 & sub0 & Hest & Hrun).
  apply call_Ok_inv in Hest as (w1 & _ & ->).
  apply bind_Ok_inv in Hrun as (s2 & sub1 & Hdrop & Hrun).
  apply ret_Ok_inv in Hrun as [-> ->].
  exists sub0.
  destruct (contains sub0 (target_col (model self))) eqn:Hin.
  - destruct (drop_columns_contains _ _ Hin) as [js Hjs].
    unfold lift in Hdrop. rewrite Hjs in Hdrop.
    by injection Hdrop as <- <-.
  - apply ret_Ok_inv in Hdrop as [-> ->].
    apply bool_decide_eq_false in Hin. simpl.
    by rewrite filter_absent.
Qed.

Lemma get_api_Ok self s s' a :
  get_api self s = (s', Ok a) → api self = Some a ∧ s' = s.
Proof.
  unfold get_api. destruct (api self) as [a'|]; [|done].
  by intros [-> ->]%ret_Ok_inv.
Qed.

Lemma _submit_Ok self sub s s' :
  _submit lib self sub s = (s', Ok ()) →
  ∃ dir a (found : bool),
    submission_csv_dir self = Some dir ∧ api self = Some a
    ∧ trace s' = trace s
        ++ [EvPathExists dir (Ok found)]
        ++ (if found then [] else [EvMakedirs dir (Ok ())])
        ++ [EvToCsv sub (dir +:+ "submission.csv") (Ok ());
            EvCompetitionSubmit (dir +:+ "submission.csv")
              (submission_comment self) (competition_name self) (Ok ())].
Proof.
  unfold _submit. destruct (submission_csv_dir self) as [dir|]; [|done].
  intros Hrun.
  apply bind_Ok_inv in Hrun as (s1 & found & Hfound & Hrun).
  apply call_Ok_inv in Hfound as (w1 & _ & ->).
  apply bind_Ok_inv in Hrun as (s2 & [] & Hmake & Hrun).
  apply bind_Ok_inv in Hrun as (s3 & [] & Hcsv & Hrun).
  apply call_Ok_inv in Hcsv as (w3 & _ & ->).
  apply bind_Ok_inv in Hrun as (s4 & a & Hapi & Hrun).
  apply get_api_Ok in Hapi as [Hapi ->].
  apply call_Ok_inv in Hrun as (w4 & _ & ->).
  exists dir, a, found. split; [done|]. split; [done|].
  destruct found; simpl in *.
  - apply ret_Ok_inv in Hmake as [-> _]. simpl. by rewrite <- !app_assoc.
  - apply call_Ok_inv in Hmake as (w2 & _ & ->). simpl.
    by rewrite <- !app_assoc.
Qed.

Lemma ABSSubmitter__save_experiment_Ok self res sub params s s' :
  ABSSubmitter__save_experiment lib self res sub params s = (s', Ok ()) →
  ∃ a subs score,
    api self = Some a ∧ latest_public_score lib subs = Ok score
    ∧ trace s' = trace s
        ++ [EvSubmissionsList (competition_name self) (Ok subs);
            EvMlflowRun (experiment_name self) (submission_comment self)
              params (<["public_score" := score]> (get_metrics res))
              [model_dir (model self)] (Ok ());
            EvSlackNotify (<["public_score" := score]> (get_metrics res))
              (Ok ());
            EvToCsv sub
              (os_path_join lib (artifact_dir self)
                 ("submission/" +:+ submission_comment self
                  +:+ "/submission.csv")) (Ok ())].
Proof.
  unfold ABSSubmitter__save_experiment, _get_public_score. intros Hrun.
  apply bind_Ok_inv in Hrun as (s1 & score & Hscore & Hrun).
  apply bind_Ok_inv in Hscore as (s2 & a & Hapi & Hscore).
  apply get_api_Ok in Hapi as [Hapi ->].
  apply bind_Ok_inv in Hscore as (s3 & subs & Hsubs & Hscore).
  apply call_Ok_inv in Hsubs as (w3 & _ & ->).
  unfold lift in Hscore. injection Hscore as <- Hscore.
  apply bind_Ok_inv in Hrun as (s4 & [] & Hmlflow & Hrun).
  apply call_Ok_inv in Hmlflow as (w4 & _ & ->).
  apply bind_Ok_inv in Hrun as (s5 & [] & Hslack & Hrun).
  apply call_Ok_inv in Hslack as (w5 & _ & ->).
  apply call_Ok_inv in Hrun as (w6 & _ & ->).
  exists a, subs, score. split; [done|]. split; [done|].
  simpl. by rewrite <- !app_assoc.
Qed.

(** C7, as the code has it.  A call of [make_submission] that returns has
    made these calls, in this order, each on what the one before returned:
    the feature cache is asked first; if it holds features they are taken
    from it, and otherwise the data is fetched, preprocessed and turned into
    features; the frame is split into train and test; the folds are cut from
    train and the model is cross-validated on them, then fitted on train if
    [retrain_all_data]; the model estimates on test and the submission is
    validated.  After that comes the breakpoint if [dry_run]; nothing if
    [return_only], and the pair of submission and result is returned; in the
    remaining case the submission is written and sent, 15 seconds are slept,
    and the experiment is recorded. *)
Theorem make_submission_stage_order self (params_info : gmap string string)
    (retrain_all_data save_model dry_run return_only : bool) s s' out :
  make_submission lib self params_info retrain_all_data save_model dry_run
    return_only s = (s', Ok out) →
  ∃ t_data data cols train test cols' folds res sub0 sub t_end,
    trace s'
    = trace s ++ t_data
      ++ [EvDelFeatures (Ok ()); EvGetCatCols (Ok cols);
          EvSetCategoricalColumns cols (Ok ())]
      ++ [EvTrainTestSplit data (Ok (train, test))]
      ++ [EvGetCatCols (Ok cols'); EvSetCategoricalColumns cols' (Ok ());
          EvCvSplit train (Ok folds);
          EvCv folds (save_model && negb retrain_all_data) (Ok res)]
      ++ (if retrain_all_data then [EvFit train save_model (Ok ())] else [])
      ++ [EvEstimate test (Ok sub0); EvValidate sub (Ok ())]
      ++ t_end
    ∧ (t_data = [EvLoadFeatures (Ok true); EvGetFeatures (Ok data)]
       ∨ ∃ d1 d2,
           t_data = [EvLoadFeatures (Ok false); EvFetch dry_run (Ok d1);
                     EvPreprocess d1 (Ok d2);
                     EvGenerateFeatures d2 (Ok data)])
    ∧ columns sub
      = map (λ c, if decide (c = "pred") then target_col (model self) else c)
            (filter (λ c, c ≠ target_col (model self)) (columns sub0))
    ∧ if dry_run then t_end = [EvBreakpoint (Ok ())] ∧ out = None
      else if return_only then t_end = [] ∧ out = Some (sub, res)
      else
        out = None
        ∧ ∃ dir a (found : bool) subs score,
            submission_csv_dir self = Some dir ∧ api self = Some a
            ∧ latest_public_score lib subs = Ok score
            ∧ t_end
              = [EvPathExists dir (Ok found)]
                ++ (if found then [] else [EvMakedirs dir (Ok ())])
                ++ [EvToCsv sub (dir +:+ "submission.csv") (Ok ());
                    EvCompetitionSubmit (dir +:+ "submission.csv")
                      (submission_comment self) (competition_name self)
                      (Ok ());
                    EvSleep 15 (Ok ());
                    EvSubmissionsList (competition_name self) (Ok subs);
                    EvMlflowRun (experiment_name self)
                      (submission_comment self)
                      (dict_merge (get_experiment_params self) params_info)
                      (<["public_score" := score]> (get_metrics res))
                      [model_dir (model self)] (Ok ());
                    EvSlackNotify
                      (<["public_score" := score]> (get_metrics res))
                      (Ok ());
                    EvToCsv sub
                      (os_path_join lib (artifact_dir self)
                         ("submission/" +:+ submission_comment self
                          +:+ "/submission.csv")) (Ok ())].
Proof.
  unfold make_submission. intros Hrun.
  apply bind_Ok_inv in Hrun as (s1 & data & Hdata & Hrun).
  apply process_data_Ok in Hdata as (t_data & cols & Ht1 & Hdata).
  apply bind_Ok_inv in Hrun as (s2 & [train test] & Hsplit & Hrun).
  apply call_Ok_inv in Hsplit as (w2 & _ & Hs2).
  apply bind_Ok_inv in Hrun as (s3 & res & Htrain & Hrun).
  rewrite _train_and_evaluate_binds in Htrain.
  apply _train_and_evaluate_body_Ok in Htrain as (cols' & folds & Ht3).
  apply bind_Ok_inv in Hrun as (s4 & sub & Hsub & Hrun).
  apply get_submit_data_Ok in Hsub as (sub0 & Ht4 & Hcols).
  apply bind_Ok_inv in Hrun as (s5 & [] & Hvalid & Hrun).
  apply call_Ok_inv in Hvalid as (w5 & _ & Hs5).
  assert (trace s5
          = trace s ++ t_data
            ++ [EvDelFeatures (Ok ()); EvGetCatCols (Ok cols);
                EvSetCategoricalColumns cols (Ok ())]
            ++ [EvTrainTestSplit data (Ok (train, test))]
            ++ [EvGetCatCols (Ok cols');
                EvSetCategoricalColumns cols' (Ok ());
                EvCvSplit train (Ok folds);
                EvCv folds (save_model && negb retrain_all_data) (Ok res)]
            ++ (if retrain_all_data
                then [EvFit train save_model (Ok ())] else [])
            ++ [EvEstimate test (Ok sub0); EvValidate sub (Ok ())]) as Ht5.
  { rewrite Hs5. simpl. rewrite Ht4, Ht3, Hs2. simpl. rewrite Ht1.
    rewrite <- !app_assoc. simpl. done. }
  exists t_data, data, cols, train, test, cols', folds, res, sub0, sub.
  destruct dry_run; simpl in Hrun.
  - apply bind_Ok_inv in Hrun as (s6 & [] & Hbreak & Hrun).
    apply call_Ok_inv in Hbreak as (w6 & _ & ->).
    apply ret_Ok_inv in Hrun as [-> ->].
    exists [EvBreakpoint (Ok ())]. simpl. rewrite Ht5.
    split; [by rewrite <- !app_assoc|done].
  - destruct return_only.
    + apply ret_Ok_inv in Hrun as [-> ->]. exists [].
      split; [by rewrite Ht5|done].
    + apply bind_Ok_inv in Hrun as (s6 & [] & Hsubmit & Hrun).
      apply _submit_Ok in Hsubmit as (dir & a & found & Hdir & Hapi & Ht6).
      apply bind_Ok_inv in Hrun as (s7 & [] & Hsleep & Hrun).
      apply call_Ok_inv in Hsleep as (w7 & _ & Hs7).
      apply bind_Ok_inv in Hrun as (s8 & [] & Hsave & Hrun).
      apply ABSSubmitter__save_experiment_Ok in Hsave
        as (a' & subs & score & _ & Hscore & Ht8).
      apply ret_Ok_inv in Hrun as [-> ->].
      eexists. split; [|split; [done|split; [done|]]]; last first.
      { split; [done|]. exists dir, a, found, subs, score.
        split; [done|]. split; [done|]. split; [done|]. reflexivity. }
      rewrite Ht8, Hs7. simpl. rewrite Ht6, Ht5.
      rewrite <- !app_assoc. simpl. done.
Qed.
End make_submission_properties.

(** ** watch_submit_time *)

(** The entry the [for] loop leaves in [result]: a listed submission whose
    reference prints as [latest_ref]; failing that, the last one listed; and
    over an empty list, the entry of the round before. *)
Lemma find_result_selects latest_ref result subs r :
  find_result latest_ref result subs = Some r →
  (r ∈ subs
   ∧ (pretty (ref r) = latest_ref
      ∨ (Forall (λ x, pretty (ref x) ≠ latest_ref) subs ∧ last subs = Some r)))
  ∨ (subs = [] ∧ result = Some r).
Proof.
  revert result. induction subs as [|x rest IH]; intros result; simpl.
  - intros ->. by right.
  - destruct (decide (pretty (ref x) = latest_ref)) as [Hx|Hx].
    + intros [= ->]. left. split; [by left|by left].
    + intros [(Hin & Hr)|(-> & [= ->])]%IH; left.
      * split; [by right|].
        destruct Hr as [Hr|[Hall Hlast]]; [by left|right].
        split; [by constructor|].
        destruct rest; [by apply elem_of_nil in Hin|done].
      * split; [by left|]. right. split; [|done].
        by repeat constructor.
Qed.

Section polling_properties.
Context {W : Type}.
Variable lib : PollLibraries W.
Variables (api : SubmissionApi W) (latest_ref : string) (submit_time : Z).
Implicit Types (s : World W PollEvent) (result : option Submission).

Lemma poll_Ok result s s' st result' :
  poll lib api latest_ref submit_time result s = (s', Ok (st, result')) →
  ∃ subs now r,
    find_result latest_ref result subs = Some r
    ∧ result' = Some r ∧ st = status r
    ∧ trace s'
      = trace s
        ++ [EvCompetitionSubmissions COMPETITION (Ok subs); EvNow (Ok now)]
        ++ (if bool_decide (st = "complete")
            then [EvPrintRunTime (elapsed_minutes now submit_time)
                                 (publicScore r)]
            else [EvPrintElapsed (elapsed_minutes now submit_time);
                  EvTimeSleep 60 (Ok ())]).
Proof.
  unfold poll. intros Hrun.
  apply bind_Ok_inv in Hrun as (s1 & subs & Hsubs & Hrun).
  apply call_Ok_inv in Hsubs as (w1 & _ & ->).
  destruct (find_result latest_ref result subs) as [r|] eqn:Hfind; [|done].
  apply bind_Ok_inv in Hrun as (s2 & now & Hnow & Hrun).
  apply call_Ok_inv in Hnow as (w2 & _ & ->).
  apply bind_Ok_inv in Hrun as (s3 & [] & Hprint & Hrun).
  apply ret_Ok_inv in Hrun as [-> [= -> ->]].
  exists subs, now, r. split; [done|]. split; [done|]. split; [done|].
  destruct (bool_decide (status r = "complete")).
  - apply call_Ok_inv in Hprint as (w3 & _ & ->). simpl.
    by rewrite <- !app_assoc.
  - apply bind_Ok_inv in Hprint as (s4 & [] & Hprint & Hsleep).
    apply call_Ok_inv in Hprint as (w4 & _ & ->).
    apply call_Ok_inv in Hsleep as (w5 & _ & ->). simpl.
    by rewrite <- !app_assoc.
Qed.

Lemma pending_rounds_trace n x y :
  pending_rounds lib api latest_ref submit_time n x y →
  ∃ rounds, length rounds = n
            ∧ trace y.1 = trace x.1 ++ concat (map (pending_round submit_time) rounds).
Proof.
  induction 1 as [x|n s result s' st result' y Hpoll Hst _ IH]; simpl.
  - exists []. by rewrite app_nil_r.
  - destruct IH as (rounds & Hlen & Htrace). simpl in Htrace.
    apply poll_Ok in Hpoll as (subs & now & r & _ & _ & _ & Hs').
    rewrite bool_decide_eq_false_2 in Hs' by done.
    exists ((subs, now) :: rounds). split; [simpl; by rewrite Hlen|].
    rewrite Htrace, Hs'. simpl. by rewrite <- !app_assoc.
Qed.

Lemma watch_loop_pending n x y fuel st :
  pending_rounds lib api latest_ref submit_time n x y →
  st ≠ "complete" →
  ∃ st', st' ≠ "complete"
         ∧ watch_loop lib (n + fuel) api latest_ref submit_time st x.2 x.1
           = watch_loop lib fuel api latest_ref submit_time st' y.2 y.1.
Proof.
  intros Hrounds. revert st.
  induction Hrounds as [x|n s result s' st1 result' y Hpoll Hst1 _ IH];
    intros st Hst.
  - by exists st.
  - destruct (IH st1 Hst1) as (st' & Hst' & Hloop).
    exists st'. split; [done|]. simpl in *.
    rewrite bool_decide_eq_true_2 by done.
    erewrite Py_bind_Ok by exact Hpoll. exact Hloop.
Qed.

End polling_properties.

(** ** The toy competition *)

Lemma reverse_shuffle_permutation seed l : reverse_shuffle seed l ≡ₚ l.
Proof. apply reverse_Permutation. Qed.

(** [k_fold] on the five toy rows, in two folds. *)
Lemma k_fold_partitions_rows_witness :
  (2 ≤ n_splits toy_splitter)%Z
  ∧ (n_splits toy_splitter ≤ Z.of_nat (len toy_frame))%Z
  ∧ ∃ folds, k_fold reverse_shuffle toy_splitter toy_frame = Ok folds
             ∧ length folds = 2.
Proof.
  split; [done|]. split; [done|].
  destruct (k_fold_partitions_rows reverse_shuffle reverse_shuffle_permutation
              toy_splitter toy_frame)
    as (pairs & folds & Hrun & Hlen & _); [done..|].
  by exists folds.
Defined.

(** A single split is refused, although the frame has a row for it. *)
Lemma k_fold_single_split_raises :
  (1 ≤ Z.of_nat (len toy_frame))%Z
  ∧ k_fold reverse_shuffle {| n_splits := 1 |} toy_frame = Raise ValueError
  ∧ ¬ ∃ folds, k_fold reverse_shuffle {| n_splits := 1 |} toy_frame = Ok folds
               ∧ length folds = 1.
Proof.
  split; [done|]. split; [done|]. by intros (folds & Hrun & _).
Qed.

(** [group_k_fold] on the three groups of the toy rows, in two folds. *)
Lemma group_k_fold_keeps_groups_together_witness :
  getitem toy_frame "group" = Ok [10; 20; 10; 30; 20]%Z
  ∧ (n_splits toy_splitter
     ≤ Z.of_nat (length (unique [10; 20; 10; 30; 20]%Z)))%Z
  ∧ ∃ folds,
      group_k_fold reverse_shuffle toy_splitter toy_frame "group" = Ok folds
      ∧ length folds = 2.
Proof.
  split; [done|]. split; [done|].
  destruct (group_k_fold_keeps_groups_together reverse_shuffle toy_splitter
              toy_frame "group" [10; 20; 10; 30; 20]%Z)
    as [Hfolds _]; [done..|].
  destruct Hfolds as (folds & Hrun & Hlen); [done|].
  by exists folds.
Defined.


(** The base class cannot be instantiated. *)
Lemma raised_and_suppressed_exceptions_witness :
  (cls_competition_name (ABSSubmitter_class (V:=Z) (W:=unit)) = ""
   ∨ cls_experiment_name (ABSSubmitter_class (V:=Z) (W:=unit)) = "")
  ∧ ABSSubmitter_init toy_libraries ABSSubmitter_class toy_fetcher
      (λ df, returns df) (toy_features false) toy_data_splitter toy_model
      "first try" toy_world
    = (toy_world, Raise ValueError).
Proof.
  split; [by left|].
  apply (proj1 (proj2 (raised_and_suppressed_exceptions toy_libraries))).
  by left.
Defined.

(** The module raises a ValueError of its own, without any call made; and
    [_init_kaggle_api] swallows an OSError. *)
Lemma init_raises_ValueError_and_api_error_is_swallowed :
  ABSSubmitter_init toy_libraries ABSSubmitter_class toy_fetcher
    (λ df, returns df) (toy_features false) toy_data_splitter toy_model
    "first try" toy_world
  = (toy_world, Raise ValueError)
  ∧ ValueError ≠ NotImplementedError
  ∧ _init_kaggle_api offline_libraries toy_world
    = (mkWorld () [EvKaggleApi (Raise OSError)], Ok None).
Proof. done. Qed.

(** [experiment] of the toy submitter stops at the call with [features]. *)
Lemma experiment_raises_before_training_witness :
  ∃ s1 df,
    process_data (toy_submitter false) false toy_world = (s1, Ok df)
    ∧ experiment toy_libraries (toy_submitter false) ∅ false false false
        toy_world
      = (s1, Raise TypeError).
Proof.
  eexists _, _. split; [reflexivity|].
  destruct (experiment_raises_before_training toy_libraries
              (toy_submitter false) ∅ false false false toy_world)
    as (_ & _ & Hok & _).
  by apply (Hok _ toy_frame).
Defined.

(** With the base fetcher, [experiment] raises NotImplementedError. *)
Lemma experiment_raises_NotImplementedError :
  (experiment toy_libraries unfinished_submitter ∅ false false false
     toy_world).2
  = Raise NotImplementedError
  ∧ NotImplementedError ≠ TypeError.
Proof. done. Qed.

(** A run of [make_submission] that returns the submission. *)
Lemma make_submission_stage_order_witness :
  ∃ s' out,
    make_submission toy_libraries (toy_submitter false) ∅ false true false
      true toy_world
    = (s', Ok out)
    ∧ ∃ data train test,
        EvTrainTestSplit data (Ok (train, test)) ∈ trace s'.
Proof.
  assert (∃ s' out,
            make_submission toy_libraries (toy_submitter false) ∅ false true
              false true toy_world = (s', Ok out)) as (s' & out & Hrun).
  { eexists _, _. vm_compute. reflexivity. }
  exists s', out. split; [done|].
  destruct (make_submission_stage_order toy_libraries (toy_submitter false) ∅
              false true false true toy_world s' out Hrun)
    as (t_data & data & cols & train & test & ? & ? & ? & ? & ? & ? & Htrace
        & _).
  exists data, train, test. rewrite Htrace.
  rewrite !elem_of_app. do 3 right. left. by left.
Defined.

(** With cached features, [make_submission] returns without having
    fetched, preprocessed or generated anything. *)
Lemma make_submission_skips_preparation :
  ∃ s' out,
    make_submission toy_libraries (toy_submitter true) ∅ false true false
      true toy_world
    = (s', Ok out)
    ∧ Forall (λ ev, is_preparation_event ev = false) (trace s').
Proof.
  eexists _, _. split; [reflexivity|].
  simpl. repeat constructor.
Qed.




(** * Further properties *)

(** ** Folds as complementary selections *)

Lemma for_each_app {A B} (body : A → Result B) l1 l2 ys1 ys2 :
  for_each body l1 = Ok ys1 → for_each body l2 = Ok ys2 →
  for_each body (l1 ++ l2) = Ok (ys1 ++ ys2).
Proof.
  rewrite !for_each_Ok. apply Forall2_app.
Qed.

Lemma select_snoc {A} (l : list A) (mask : list bool) x b :
  length l = length mask →
  select (l ++ [x]) (mask ++ [b]) = select l mask ++ (if b then [x] else []).
Proof.
  revert mask. induction l as [|y l IH]; intros [|c mask] Hlen; simpl in *;
    try lia.
  - by destruct b.
  - rewrite IH by lia. by destruct c.
Qed.

Lemma select_sublist {A} (l : list A) (mask : list bool) :
  select l mask `sublist_of` l.
Proof.
  revert mask. induction l as [|x l IH]; intros [|b mask]; simpl.
  - done.
  - done.
  - apply sublist_nil_l.
  - destruct b; [by apply sublist_skip|by apply sublist_cons].
Qed.

Lemma select_complement_length {A} (l : list A) (mask : list bool) :
  length l = length mask →
  length (select l mask) + length (select l (map negb mask)) = length l.
Proof.
  revert mask. induction l as [|x l IH]; intros [|b mask] Hlen; simpl in *;
    try lia.
  specialize (IH mask ltac:(lia)). destruct b; simpl; lia.
Qed.

Lemma filter_ext_in {A} (P Q : A → Prop) `{∀ x, Decision (P x)}
    `{∀ x, Decision (Q x)} (l : list A) :
  (∀ x, x ∈ l → P x ↔ Q x) → filter P l = filter Q l.
Proof.
  induction l as [|x l IH]; intros Hext; [done|].
  rewrite !filter_cons.
  rewrite IH by (intros y Hy; apply Hext; by right).
  destruct (decide (P x)) as [HP|HP], (decide (Q x)) as [HQ|HQ]; try done.
  - destruct HQ. apply Hext; [by left|done].
  - destruct HP. apply Hext; [by left|done].
Qed.

Lemma masked_arange_snoc (mask : list bool) b :
  masked_arange (mask ++ [b])
  = masked_arange mask ++ (if b then [length mask] else []).
Proof.
  unfold masked_arange. rewrite length_app. simpl.
  rewrite seq_app, filter_app. simpl. f_equal.
  - apply filter_ext_in. intros i [_ Hi]%elem_of_seq. simpl in Hi.
    by rewrite lookup_app_l.
  - rewrite filter_cons, filter_nil.
    rewrite lookup_app_r, Nat.sub_diag by done. simpl.
    destruct b; by case_decide.
Qed.

(** Picking the positions of a mask is selecting with the mask. *)
Lemma for_each_masked_arange {A} (l : list A) (mask : list bool) :
  length l = length mask →
  for_each (λ i, match l !! i with
                 | Some r => Ok r
                 | None => Raise IndexError
                 end) (masked_arange mask)
  = Ok (select l mask).
Proof.
  revert mask. induction l as [|x l IH] using rev_ind; intros mask Hlen.
  - destruct mask; [done|]. by simpl in Hlen.
  - destruct mask as [|b mask _] using rev_ind.
    { rewrite length_app in Hlen. simpl in Hlen. lia. }
    rewrite !length_app in Hlen. simpl in Hlen.
    rewrite masked_arange_snoc, select_snoc by lia.
    apply for_each_app.
    + rewrite <- (IH mask) by lia. 
      assert (Forall (λ i, i < length l) (masked_arange mask)) as Hlt.
      { apply Forall_forall. intros i Hi%elem_of_masked_arange.
        apply lookup_lt_Some in Hi. lia. }
      clear IH. induction Hlt as [|i idx Hi _ IH']; [done|]. simpl.
      rewrite lookup_app_l by done. by rewrite IH'.
    + destruct b; [|done]. simpl.
      rewrite lookup_app_r by lia.
      replace (length mask - length l) with 0 by lia. done.
Qed.

Lemma for_each_map {A B C} (body : B → Result C) (f : A → B) (g : A → C) l :
  (∀ x, x ∈ l → body (f x) = Ok (g x)) →
  for_each body (map f l) = Ok (map g l).
Proof.
  induction l as [|x l IH]; intros Hbody; simpl; [done|].
  rewrite Hbody by left. rewrite IH; [done|].
  intros y Hy. apply Hbody. by right.
Qed.

Section more_k_fold_properties.
Context {V : Type} `{EqDecision V}.
Variable shuffle : Z → list nat → list nat.
Implicit Types (df : DataFrame V) (self : ABSDataSplitter).

Lemma iloc_masked_arange df (mask : list bool) :
  length mask = len df →
  iloc df (masked_arange mask) = Ok (getitem_mask df mask).
Proof.
  intros Hlen. unfold iloc.
  by rewrite for_each_masked_arange.
Qed.

(** [k_fold] written with boolean masks: when it yields, the pair of a fold
    is [df[~mask]] and [df[mask]] for the mask of the fold's test
    positions. *)
Lemma k_fold_masks self df :
  (2 ≤ n_splits self ≤ Z.of_nat (len df))%Z →
  k_fold shuffle self df
  = Ok (map (λ t, (getitem_mask df (map negb (test_mask (len df) t)),
                   getitem_mask df (test_mask (len df) t)))
            (iter_test_indices shuffle (Z.to_nat (n_splits self)) (len df))).
Proof.
  intros Hk. unfold k_fold, KFold_split.
  rewrite !decide_False by lia. simpl.
  apply for_each_map. intros t _. simpl.
  rewrite !iloc_masked_arange; [done|..].
  - by rewrite length_map, test_mask_length.
  - apply test_mask_length.
Qed.

Lemma k_fold_out_of_range self df :
  ¬ (2 ≤ n_splits self ≤ Z.of_nat (len df))%Z →
  k_fold shuffle self df = Raise ValueError.
Proof.
  intros Hk. unfold k_fold, KFold_split.
  destruct (decide (n_splits self ≤ 1)%Z); [done|].
  rewrite decide_True by lia. done.
Qed.

(** X1: whatever the shuffle, [k_fold] either yields exactly [n_splits]
    pairs, which it does when [2 <= n_splits <= len(df)], or raises
    ValueError; no other exception leaves it. *)
Theorem k_fold_yields_or_raises_ValueError self df :
  ((2 ≤ n_splits self ≤ Z.of_nat (len df))%Z
   ∧ ∃ folds, k_fold shuffle self df = Ok folds
              ∧ length folds = Z.to_nat (n_splits self))
  ∨ (¬ (2 ≤ n_splits self ≤ Z.of_nat (len df))%Z
     ∧ k_fold shuffle self df = Raise ValueError).
Proof.
  destruct (decide (2 ≤ n_splits self ≤ Z.of_nat (len df))%Z) as [Hk|Hk].
  - left. split; [done|]. eexists. split; [by apply k_fold_masks|].
    by rewrite length_map, iter_test_indices_length.
  - right. split; [done|]. by apply k_fold_out_of_range.
Qed.

(** X2: the two frames of a yielded pair are complementary selections of
    [df]: there is a mask with one bit per row such that the validation
    frame is [df[mask]] and the train frame [df[~mask]].  So both keep the
    columns of [df] and the order of its rows, and every row of [df] is in
    one of them: the shuffle decides the membership of rows, not their
    order. *)
Theorem k_fold_frames_are_complementary self df folds :
  k_fold shuffle self df = Ok folds →
  Forall (λ '(train, valid),
            ∃ mask : list bool,
              length mask = len df
              ∧ valid = getitem_mask df mask
              ∧ train = getitem_mask df (map negb mask)
              ∧ columns train = columns df ∧ columns valid = columns df
              ∧ rows train `sublist_of` rows df
              ∧ rows valid `sublist_of` rows df
              ∧ len train + len valid = len df) folds.
Proof.
  intros Hrun.
  destruct (decide (2 ≤ n_splits self ≤ Z.of_nat (len df))%Z) as [Hk|Hk];
    [|by rewrite k_fold_out_of_range in Hrun].
  rewrite k_fold_masks in Hrun by done. injection Hrun as <-.
  apply Forall_map, Forall_forall. intros t _. simpl.
  exists (test_mask (len df) t).
  split; [apply test_mask_length|]. do 4 (split; [done|]).
  split; [apply select_sublist|]. split; [apply select_sublist|].
  unfold len. simpl. rewrite Nat.add_comm.
  apply select_complement_length. by rewrite test_mask_length.
Qed.
End more_k_fold_properties.

(** ** The sizes of the folds *)

Lemma fold_sizes_replicate n_samples k :
  0 < k →
  fold_sizes n_samples k
  = replicate (n_samples mod k) (n_samples / k + 1)
    ++ replicate (k - n_samples mod k) (n_samples / k).
Proof.
  intros Hk. unfold fold_sizes, incr_prefix.
  pose proof (Nat.mod_upper_bound n_samples k ltac:(lia)) as Hr.
  rewrite take_replicate, drop_replicate.
  change (map S ?l) with (S <$> l). rewrite fmap_replicate.
  rewrite Nat.min_l by lia. by rewrite Nat.add_1_r.
Qed.

Lemma iter_folds_lengths (indices : list nat) current sizes :
  current + sum_list sizes ≤ length indices →
  map length (iter_folds indices current sizes) = sizes.
Proof.
  revert current. induction sizes as [|s sizes IH]; intros c Hc; simpl in *;
    [done|].
  rewrite IH by lia. f_equal. unfold slice.
  rewrite length_take, length_drop. lia.
Qed.

Lemma iter_folds_sublist (indices : list nat) current sizes :
  Forall (λ t, t `sublist_of` indices) (iter_folds indices current sizes).
Proof.
  revert current. induction sizes as [|s sizes IH]; intros c; simpl;
    constructor; [|apply IH].
  unfold slice. etrans; [apply sublist_take|apply sublist_drop].
Qed.

Lemma select_test_mask_length {A} (l : list A) (t : list nat) :
  NoDup t → (∀ i, i ∈ t → i < length l) →
  length (select l (test_mask (length l) t)) = length t.
Proof.
  intros Hnd Hlt.
  pose proof (for_each_masked_arange l (test_mask (length l) t)) as Hpick.
  rewrite test_mask_length in Hpick. specialize (Hpick eq_refl).
  apply for_each_length in Hpick. rewrite Hpick.
  apply Permutation_length, NoDup_Permutation;
    [apply NoDup_masked_arange|done|].
  intros i. rewrite elem_of_valid_index. split; [by intros [_ ?]|].
  intros Hi. split; [by apply Hlt|done].
Qed.

Section fold_sizes_properties.
Context {V : Type} `{EqDecision V}.
Variable shuffle : Z → list nat → list nat.
Hypothesis shuffle_permutation : ∀ seed l, shuffle seed l ≡ₚ l.
Implicit Types (df : DataFrame V) (self : ABSDataSplitter).

Lemma iter_test_indices_slices k n :
  0 < k →
  map length (iter_test_indices shuffle k n) = fold_sizes n k
  ∧ Forall (λ t, NoDup t ∧ ∀ i, i ∈ t → i < n) (iter_test_indices shuffle k n).
Proof.
  intros Hk. unfold iter_test_indices.
  pose proof (shuffle_permutation SEED (seq 0 n)) as Hperm.
  split.
  - apply iter_folds_lengths.
    rewrite fold_sizes_sum, (Permutation_length Hperm), length_seq by done.
    lia.
  - eapply Forall_impl; [apply iter_folds_sublist|]. intros t Ht. split.
    + eapply sublist_NoDup; [|exact Ht]. rewrite Hperm. apply NoDup_seq.
    + intros i Hi. eapply elem_of_sublist in Hi; [|exact Ht].
      rewrite Hperm in Hi. apply elem_of_seq in Hi. lia.
Qed.

(** X3: with [2 <= n_splits <= len(df)], the validation frames are as even
    as can be: the first [len(df) mod n_splits] of them have
    [len(df) // n_splits + 1] rows and the others [len(df) // n_splits];
    no validation frame and no train frame is empty. *)
Theorem k_fold_validation_sizes self df :
  (2 ≤ n_splits self ≤ Z.of_nat (len df))%Z →
  let k := Z.to_nat (n_splits self) in
  ∃ folds,
    k_fold shuffle self df = Ok folds
    ∧ map (λ fold, len fold.2) folds
      = replicate (len df mod k) (len df / k + 1)
        ++ replicate (k - len df mod k) (len df / k)
    ∧ Forall (λ fold, 0 < len fold.1 ∧ 0 < len fold.2
                      ∧ len fold.1 + len fold.2 = len df) folds.
Proof.
  intros Hk k. assert (2 ≤ k ≤ len df) as Hk' by lia.
  destruct (iter_test_indices_slices k (len df)) as [Hsizes Hslices]; [lia|].
  eexists. split; [by apply k_fold_masks|].
  assert (map (λ fold : DataFrame V * DataFrame V, len fold.2)
              (map (λ t, (getitem_mask df (map negb (test_mask (len df) t)),
                          getitem_mask df (test_mask (len df) t)))
                   (iter_test_indices shuffle k (len df)))
          = fold_sizes (len df) k) as Hvalid.
  { rewrite map_map, <- Hsizes. apply map_ext_Forall.
    eapply Forall_impl; [exact Hslices|]. intros t [Hnd Hlt]. simpl.
    unfold len at 1. simpl. by apply select_test_mask_length. }
  fold k. split; [by rewrite Hvalid, fold_sizes_replicate by lia|].
  apply Forall_map, Forall_forall. intros t Ht. simpl.
  assert (len (getitem_mask df (test_mask (len df) t)) ∈ fold_sizes (len df) k)
    as Hsize.
  { rewrite <- Hvalid, map_map. simpl.
    by apply (list_elem_of_fmap_2
      (λ t, len (getitem_mask df (test_mask (len df) t)))). }
  assert (len (getitem_mask df (map negb (test_mask (len df) t)))
          + len (getitem_mask df (test_mask (len df) t)) = len df) as Hsum.
  { unfold len. simpl. rewrite Nat.add_comm.
    apply select_complement_length. by rewrite test_mask_length. }
  rewrite fold_sizes_replicate in Hsize by lia.
  pose proof (Nat.div_mod_eq (len df) k) as Hdiv.
  pose proof (Nat.mod_upper_bound (len df) k ltac:(lia)) as Hmod.
  assert (1 ≤ len df / k) as Hq.
  { apply Nat.div_le_lower_bound; lia. }
  apply elem_of_app in Hsize as [Hsize|Hsize];
    apply elem_of_replicate in Hsize as [Hsize Hcount]; nia.
Qed.
End fold_sizes_properties.

(** ** Grouped folds *)

Lemma elem_of_select_negb {A} (l : list A) (mask : list bool) x :
  NoDup l → length l = length mask → x ∈ l →
  x ∈ select l (map negb mask) ↔ x ∉ select l mask.
Proof.
  intros Hnd. revert mask.
  induction Hnd as [|y l Hy Hnd IH]; intros [|b mask] Hlen Hx; simpl in *;
    try lia.
  { by apply elem_of_nil in Hx. }
  assert (∀ m, y ∉ select l m) as Hnot.
  { intros m Hin. apply Hy. eapply elem_of_sublist; [exact Hin|].
    apply select_sublist. }
  apply elem_of_cons in Hx as [->|Hx].
  - destruct b; simpl; rewrite ?elem_of_cons.
    + split; [intros Hin; by apply Hnot in Hin|].
      intros Hn. destruct Hn. by left.
    + split; [intros _; apply Hnot|intros _; by left].
  - assert (x ≠ y) as Hne by (intros ->; done).
    specialize (IH mask ltac:(lia) Hx).
    destruct b; simpl; rewrite ?elem_of_cons; tauto.
Qed.

Lemma elem_of_select_test_mask {A} (l : list A) (t : list nat) x i :
  NoDup l → l !! i = Some x →
  x ∈ select l (test_mask (length l) t) ↔ i ∈ t.
Proof.
  intros Hnd Hi. pose proof (lookup_lt_Some _ _ _ Hi) as Hlt. split.
  - intros (i' & Hi' & Hm)%elem_of_select.
    assert (i' = i) as -> by (by eapply NoDup_lookup).
    rewrite test_mask_lookup in Hm by done.
    injection Hm as Hm. by apply bool_decide_eq_true in Hm.
  - intros Hin. eapply select_lookup; [done|].
    rewrite test_mask_lookup by done. by rewrite bool_decide_eq_true_2.
Qed.

Section more_group_k_fold_properties.
Context {V : Type} `{EqDecision V}.
Variable shuffle : Z → list nat → list nat.
Implicit Types (df : DataFrame V) (self : ABSDataSplitter) (series : list V).

Lemma take_positions_masked_arange (groups : list V) (mask : list bool) :
  length mask = length groups →
  take_positions groups (masked_arange mask) = Ok (select groups mask).
Proof. intros Hlen. by apply for_each_masked_arange. Qed.

(** [group_k_fold] written with boolean masks over the distinct groups. *)
Lemma group_k_fold_masks self df group_col series :
  getitem df group_col = Ok series →
  (2 ≤ n_splits self ≤ Z.of_nat (length (unique series)))%Z →
  group_k_fold shuffle self df group_col
  = Ok (map (λ t,
               let mask := test_mask (length (unique series)) t in
               (getitem_mask df
                  (isin series (select (unique series) (map negb mask))),
                getitem_mask df (isin series (select (unique series) mask))))
            (iter_test_indices shuffle (Z.to_nat (n_splits self))
               (length (unique series)))).
Proof.
  intros Hseries Hk. unfold group_k_fold, KFold_split.
  rewrite Hseries. simpl. rewrite !decide_False by lia. simpl.
  apply for_each_map. intros t _. simpl.
  rewrite !take_positions_masked_arange; [done|..].
  - by rewrite length_map, test_mask_length.
  - apply test_mask_length.
Qed.


Hypothesis shuffle_permutation : ∀ seed l, shuffle seed l ≡ₚ l.

(** X5: with [n_splits] between 2 and the number of distinct groups, every
    pair splits the rows of [df] in two: the validation frame is
    [df[mask]] and the train frame [df[~mask]] for one mask over the rows,
    so no row is lost and none is in both; and every group of [df] is a
    validation group of exactly one pair. *)
Theorem group_k_fold_holds_out_each_group_once self df group_col series :
  getitem df group_col = Ok series →
  (2 ≤ n_splits self ≤ Z.of_nat (length (unique series)))%Z →
  ∃ folds,
    group_k_fold shuffle self df group_col = Ok folds
    ∧ Forall (λ '(train, valid),
                ∃ mask : list bool,
                  length mask = len df
                  ∧ valid = getitem_mask df mask
                  ∧ train = getitem_mask df (map negb mask)
                  ∧ len train + len valid = len df) folds
    ∧ ∀ g, g ∈ series →
        ∃ j, (∃ fold values, folds !! j = Some fold
                             ∧ getitem fold.2 group_col = Ok values
                             ∧ g ∈ values)
             ∧ ∀ j', (∃ fold values, folds !! j' = Some fold
                                     ∧ getitem fold.2 group_col = Ok values
                                     ∧ g ∈ values) → j' = j.
Proof.
  intros Hseries Hk.
  set (groups := unique series).
  set (k := Z.to_nat (n_splits self)).
  assert (NoDup groups) as Hnd by apply (NoDup_unique_from [] series).
  assert (length series = len df) as Hrows.
  { unfold getitem in Hseries.
    destruct (positions_of group_col (columns df)) as [|j [|]]; try done.
    by apply for_each_length in Hseries. }
  eexists. split; [by apply group_k_fold_masks|]. fold groups k.
  split.
  - apply Forall_map, Forall_forall. intros t _. simpl.
    exists (isin series (select groups (test_mask (length groups) t))).
    split; [unfold isin; by rewrite length_map|]. split; [done|].
    assert (isin series (select groups (map negb (test_mask (length groups) t)))
            = map negb
                (isin series (select groups (test_mask (length groups) t))))
      as ->.
    { unfold isin. rewrite map_map. apply map_ext_Forall, Forall_forall.
      intros v Hv%elem_of_unique. fold groups in Hv.
      apply eq_true_iff_eq. rewrite negb_true_iff.
      rewrite bool_decide_eq_true, bool_decide_eq_false.
      apply elem_of_select_negb; [done| |done].
      by rewrite test_mask_length. }
    split; [done|]. unfold len. simpl. rewrite Nat.add_comm.
    apply select_complement_length.
    unfold isin. rewrite length_map. done.
  - intros g Hg. apply elem_of_unique in Hg. fold groups in Hg.
    apply list_elem_of_lookup_1 in Hg as [i Hi].
    pose proof (lookup_lt_Some _ _ _ Hi) as Hlt.
    pose proof (iter_test_indices_concat shuffle shuffle_permutation k
                  (length groups) ltac:(lia)) as Hperm.
    destruct (concat_unique_index
                (iter_test_indices shuffle k (length groups)) i)
      as (j & (t & Hj & Hit) & Huniq).
    { rewrite Hperm. apply NoDup_seq. }
    { rewrite Hperm. apply elem_of_seq. lia. }
    assert (∀ j' fold values,
              map (λ t,
                     (getitem_mask df
                        (isin series (select groups
                           (map negb (test_mask (length groups) t)))),
                      getitem_mask df
                        (isin series (select groups
                           (test_mask (length groups) t)))))
                  (iter_test_indices shuffle k (length groups)) !! j'
              = Some fold →
              getitem fold.2 group_col = Ok values →
              ∃ t', iter_test_indices shuffle k (length groups) !! j' = Some t'
                    ∧ (g ∈ values ↔ i ∈ t')) as Hfold.
    { intros j' fold values Hj' Hvalues.
      change (map ?f ?l) with (f <$> l) in Hj'.
      rewrite list_lookup_fmap in Hj'.
      destruct (iter_test_indices shuffle k (length groups) !! j')
        as [t'|]; [|done].
      injection Hj' as <-. simpl in Hvalues.
      erewrite getitem_mask_series in Hvalues by done.
      injection Hvalues as <-. exists t'. split; [done|].
      rewrite elem_of_select_isin, elem_of_select_test_mask by done.
      split; [tauto|]. intros ?. split; [|done].
      apply elem_of_unique. by eapply list_elem_of_lookup_2. }
    exists j. split.
    + eexists _, _. split; [|split].
      * change (map ?f ?l) with (f <$> l). by rewrite list_lookup_fmap, Hj.
      * simpl. by apply getitem_mask_series.
      * rewrite elem_of_select_isin, elem_of_select_test_mask by done.
        split; [|done]. apply elem_of_unique.
        by eapply list_elem_of_lookup_2.
    + intros j' (fold & values & Hj' & Hvalues & Hin).
      destruct (Hfold _ _ _ Hj' Hvalues) as (t' & Ht' & Hiff).
      apply Huniq. exists t'. split; [done|]. by apply Hiff.
Qed.
End more_group_k_fold_properties.

(** ** The shape of the submission frame *)

Lemma drop_cells_length {V} (col : string) (cols : list string) (r : list V)
    (f : nat → bool) :
  length r = length cols →
  (∀ j c, cols !! j = Some c → f j = bool_decide (c = col)) →
  length (concat (imap (λ j v, if f j then [] else [v]) r))
  = length (filter (λ c, c ≠ col) cols).
Proof.
  revert r f. induction cols as [|c cols IH]; intros [|v r] f Hlen Hf;
    simpl in *; try lia.
  pose proof (IH r (f ∘ S) ltac:(lia)
                (λ j c' Hj, Hf (S j) c' Hj)) as Htail.
  rewrite length_app, filter_cons. unfold compose in *.
  rewrite Htail, (Hf 0 c eq_refl).
  destruct (decide (c ≠ col)) as [Hc|Hc].
  - by rewrite bool_decide_eq_false_2.
  - rewrite bool_decide_eq_true_2; [done|]. by destruct (decide (c = col)).
Qed.

Section submission_shape.
Context {V : Type} `{EqDecision V} {W Submissions : Type}.
Implicit Types (self : ABSSubmitter V W Submissions).

Lemma drop_columns_well_formed (df : DataFrame V) (col : string) dropped :
  well_formed df → drop_columns df col = Ok dropped →
  well_formed dropped ∧ len dropped = len df
  ∧ columns dropped = filter (λ c, c ≠ col) (columns df).
Proof.
  unfold drop_columns, well_formed. intros Hwf Hdrop.
  destruct (positions_of col (columns df)) as [|j js] eqn:Hpos; [done|].
  injection Hdrop as <-. simpl. rewrite <- Hpos.
  split; [|split; [unfold len; simpl; by rewrite length_map|done]].
  apply Forall_map. eapply Forall_impl; [exact Hwf|]. intros r Hr. simpl.
  unfold drop_cells. apply drop_cells_length; [done|].
  intros i c Hi. apply bool_decide_ext.
  rewrite elem_of_positions_of, Hi. split; congruence.
Qed.

(** X6: when the estimate output is well formed (every row has one cell per
    column), so is the frame [get_submit_data] returns, and it has the same
    number of rows: dropping the target column takes the cells of that
    column out of every row. *)
Theorem get_submit_data_keeps_shape self (test : DataFrame V)
    (s : World W (Event V W Submissions)) (w : W) (sub0 : DataFrame V) :
  estimate (model self) test (outside s) = (w, Ok sub0) →
  well_formed sub0 →
  ∃ sub, (get_submit_data self test s).2 = Ok sub
         ∧ well_formed sub ∧ len sub = len sub0
         ∧ length (columns sub) ≤ length (columns sub0).
Proof.
  intros Hestimate Hwf. unfold get_submit_data.
  erewrite Py_bind_Ok; last by (unfold call; rewrite Hestimate).
  destruct (contains sub0 (target_col (model self))) eqn:Hin.
  - destruct (drop_columns_contains _ _ Hin) as [js Hdrop].
    destruct (drop_columns_well_formed _ _ _ Hwf Hdrop)
      as (Hwf' & Hlen & Hcols).
    eexists. split; [|split; [|split]].
    + unfold mbind, Py_bind, lift. rewrite Hdrop. reflexivity.
    + unfold well_formed in *. simpl in *. by rewrite length_map.
    + done.
    + simpl. rewrite length_map. apply length_filter.
  - eexists. split; [reflexivity|]. split; [|split; [done|]].
    + unfold well_formed in *. simpl. by rewrite length_map.
    + simpl. by rewrite length_map.
Qed.
End submission_shape.

(** ** More on the metrics *)

Section more_metrics_properties.
Local Open Scope R_scope.

Lemma total_of_equal (xs : list R) (c : R) :
  Forall (λ x, x = c) xs → total xs = c * INR (length xs).
Proof.
  induction 1 as [|x xs -> _ IH]; [simpl; lra|].
  cbn [total]. rewrite IH, length_cons, S_INR. lra.
Qed.

Lemma INR_length_pos {A} (xs : list A) : xs ≠ [] → 0 < INR (length xs).
Proof.
  intros Hxs. destruct xs as [|x xs]; [done|].
  rewrite length_cons, S_INR. pose proof (pos_INR (length xs)). lra.
Qed.


End more_metrics_properties.

(** ** More rules for traces *)

Lemma emits_ext {W Ev A} (P : Ev → Prop) (m m' : Py (World W Ev) A) :
  (∀ s, m s = m' s) → emits P m' → emits P m.
Proof. intros Heq Hm s. rewrite Heq. apply Hm. Qed.

Lemma emits_impl {W Ev A} (P Q : Ev → Prop) (m : Py (World W Ev) A) :
  (∀ ev, P ev → Q ev) → emits P m → emits Q m.
Proof.
  intros HPQ Hm s. destruct (Hm s) as (t & Ht & HP).
  exists t. split; [done|]. by eapply Forall_impl.
Qed.

Lemma never_returns_raise {S A} (e : exn) : never_returns (S:=S) (A:=A) (raise e).
Proof. intros s. by exists e. Qed.

Lemma never_returns_bind_l {S A B} (m : Py S A) (k : A → Py S B) :
  never_returns m → never_returns (m ≫= k).
Proof.
  intros Hm s. destruct (Hm s) as [e He]. exists e.
  unfold mbind, Py_bind. destruct (m s) as [s' [a|e']]; simpl in *; congruence.
Qed.

Lemma never_returns_bind_r {S A B} (m : Py S A) (k : A → Py S B) :
  (∀ a, never_returns (k a)) → never_returns (m ≫= k).
Proof.
  intros Hk s. unfold mbind, Py_bind.
  destruct (m s) as [s' [a|e]]; [apply Hk|by exists e].
Qed.

Lemma never_returns_call {W Ev A} (ev : Result A → Ev) (f : Py W A) :
  never_returns f → never_returns (call ev f).
Proof.
  intros Hf s. destruct (Hf (outside s)) as [e He]. exists e.
  unfold call. by destruct (f (outside s)) as [w r].
Qed.

(** What comes after a computation that never returns adds nothing. *)
Lemma emits_bind_never {W Ev A B} (P : Ev → Prop) (m : Py (World W Ev) A)
    (k : A → Py (World W Ev) B) :
  emits P m → never_returns m → emits P (m ≫= k).
Proof.
  intros Hm Hnever s. destruct (Hm s) as (t & Ht & HP).
  destruct (Hnever s) as [e He]. exists t.
  unfold mbind, Py_bind.
  destruct (m s) as [s' [a|e']]; simpl in *; [done|]. by split.
Qed.

Section more_pipeline_properties.
Context {V : Type} `{EqDecision V} {W Submissions : Type}.
Variable lib : Libraries V W Submissions.
Implicit Types (self : ABSSubmitter V W Submissions).
Implicit Types (s : World W (Event V W Submissions)).

Lemma process_data_no_submission self dry_run :
  emits (λ ev, is_submission_event ev = false) (process_data self dry_run).
Proof.
  unfold process_data, _process_data.
  apply emits_bind; [by apply emits_call|]. intros cached.
  apply emits_bind.
  { destruct cached; [by apply emits_call|].
    repeat (apply emits_bind; [by apply emits_call|]; intros ?).
    apply emits_ret. }
  intros data.
  repeat (apply emits_bind; [by apply emits_call|]; intros ?).
  apply emits_ret.
Qed.

Lemma _train_and_evaluate_body_no_submission self train
    (retrain_all_data save_model : bool) :
  emits (λ ev, is_submission_event ev = false)
        (_train_and_evaluate_body self train retrain_all_data save_model).
Proof.
  unfold _train_and_evaluate_body.
  do 4 (apply emits_bind; [by apply emits_call|]; intros ?).
  apply emits_bind; [|intros ?; apply emits_ret].
  destruct retrain_all_data; [by apply emits_call|apply emits_ret].
Qed.

Lemma get_submit_data_no_submission self test :
  emits (λ ev, is_submission_event ev = false) (get_submit_data self test).
Proof.
  unfold get_submit_data.
  apply emits_bind; [by apply emits_call|]. intros sub.
  apply emits_bind; [|intros ?; apply emits_ret].
  destruct (contains _ _); [apply emits_lift|apply emits_ret].
Qed.

Lemma _train_and_evaluate_no_submission self train
    (retrain_all_data save_model : bool) :
  emits (λ ev, is_submission_event ev = false)
        (_train_and_evaluate self [VFrame train]
           [("retrain_all_data", VBool retrain_all_data);
            ("save_model", VBool save_model)]).
Proof.
  eapply emits_ext; [apply _train_and_evaluate_binds|].
  apply _train_and_evaluate_body_no_submission.
Qed.

(** X9: with [dry_run] or [return_only], [make_submission] makes none of
    the calls of the submission and of the record, however the run goes:
    no file is written, nothing is sent to the competition, the tracker or
    the notifier, and it does not sleep. *)
Theorem make_submission_submits_only_for_real self
    (params_info : gmap string string)
    (retrain_all_data save_model dry_run return_only : bool) :
  dry_run = true ∨ return_only = true →
  emits (λ ev, is_submission_event ev = false)
        (make_submission lib self params_info retrain_all_data save_model
           dry_run return_only).
Proof.
  intros Hflag. unfold make_submission.
  apply emits_bind; [apply process_data_no_submission|]. intros data.
  apply emits_bind; [by apply emits_call|]. intros [train test].
  apply emits_bind; [apply _train_and_evaluate_no_submission|]. intros res.
  apply emits_bind; [apply get_submit_data_no_submission|]. intros sub.
  apply emits_bind; [by apply emits_call|]. intros _.
  destruct dry_run; simpl.
  - apply emits_bind; [by apply emits_call|]. intros _. apply emits_ret.
  - destruct return_only; [apply emits_ret|]. by destruct Hflag.
Qed.

(** X10: a submitter whose class does not define [validate_submit_data]
    cannot submit: [make_submission] always raises, at the latest the
    NotImplementedError of the placeholder, and makes none of the calls of
    the submission and of the record. *)
Theorem make_submission_needs_validate_submit_data self
    (params_info : gmap string string)
    (retrain_all_data save_model dry_run return_only : bool) :
  validate_submit_data self = ABSSubmitter_validate_submit_data →
  never_returns (make_submission lib self params_info retrain_all_data
                   save_model dry_run return_only)
  ∧ emits (λ ev, is_submission_event ev = false)
          (make_submission lib self params_info retrain_all_data save_model
             dry_run return_only).
Proof.
  intros Hvalidate. unfold make_submission. rewrite Hvalidate.
  assert (∀ sub : DataFrame V,
            never_returns
              (call (W:=W) (Ev:=Event V W Submissions) (EvValidate sub)
                    (ABSSubmitter_validate_submit_data sub))) as Hnever.
  { intros sub. apply never_returns_call, never_returns_raise. }
  split.
  - apply never_returns_bind_r. intros data.
    apply never_returns_bind_r. intros [train test].
    apply never_returns_bind_r. intros res.
    apply never_returns_bind_r. intros sub.
    apply never_returns_bind_l, Hnever.
  - apply emits_bind; [apply process_data_no_submission|]. intros data.
    apply emits_bind; [by apply emits_call|]. intros [train test].
    apply emits_bind; [apply _train_and_evaluate_no_submission|]. intros res.
    apply emits_bind; [apply get_submit_data_no_submission|]. intros sub.
    apply emits_bind_never; [by apply emits_call|apply Hnever].
Qed.


Lemma get_api_offline self :
  api self = None → never_returns (get_api self).
Proof. intros Hapi s. unfold get_api. rewrite Hapi. by eexists. Qed.

Lemma emits_get_api (P : Event V W Submissions → Prop) self :
  emits P (get_api self).
Proof.
  unfold get_api. destruct (api self); [apply emits_ret|apply emits_raise].
Qed.

Lemma _submit_offline self (sub : DataFrame V) :
  api self = None →
  never_returns (_submit lib self sub)
  ∧ emits (λ ev, ∀ f m c o, ev ≠ EvCompetitionSubmit f m c o)
          (_submit lib self sub).
Proof.
  intros Hapi. unfold _submit.
  destruct (submission_csv_dir self) as [dir|];
    [|split; [apply never_returns_raise|apply emits_raise]].
  split.
  - do 3 (apply never_returns_bind_r; intros ?).
    by apply never_returns_bind_l, get_api_offline.
  - apply emits_bind; [by apply emits_call|]. intros found.
    apply emits_bind.
    { destruct (negb found); [by apply emits_call|apply emits_ret]. }
    intros _.
    apply emits_bind; [by apply emits_call|]. intros _.
    apply emits_bind_never; [apply emits_get_api|by apply get_api_offline].
Qed.

(** X12: a submitter built where the API client cannot be set up (its
    construction raises OSError, which [__init__] swallows) has no API, and
    cannot submit: [_submit] always raises and never reaches the call that
    sends the file, and so does a [make_submission] that is meant to
    submit. *)
Theorem submitter_built_offline_cannot_submit (cls : SubmitterClass V W)
    fetcher preprocessor features splitter mdl (comment : string) s w :
  cls_competition_name cls ≠ "" → cls_experiment_name cls ≠ "" →
  KaggleApi_new lib (outside s) = (w, Raise OSError) →
  ∃ self,
    ABSSubmitter_init lib cls fetcher preprocessor features splitter mdl
      comment s
    = (mkWorld w (trace s ++ [EvKaggleApi (Raise OSError)]), Ok self)
    ∧ api self = None
    ∧ (∀ sub, never_returns (_submit lib self sub))
    ∧ (∀ sub, emits (λ ev, ∀ f m c o, ev ≠ EvCompetitionSubmit f m c o)
                    (_submit lib self sub))
    ∧ ∀ params_info retrain_all_data save_model,
        never_returns (make_submission lib self params_info retrain_all_data
                         save_model false false).
Proof.
  intros Hc He Hnew. eexists. split.
  { unfold ABSSubmitter_init. rewrite !bool_decide_eq_false_2 by done.
    unfold _init_kaggle_api, try_except, mbind, Py_bind, call.
    rewrite Hnew. reflexivity. }
  split; [done|].
  split; [intros sub; by apply _submit_offline|].
  split; [intros sub; by apply _submit_offline|].
  intros params_info retrain_all_data save_model. unfold make_submission.
  apply never_returns_bind_r. intros data.
  apply never_returns_bind_r. intros [train test].
  apply never_returns_bind_r. intros res.
  apply never_returns_bind_r. intros sub.
  apply never_returns_bind_r. intros _. simpl.
  by apply never_returns_bind_l, _submit_offline.
Qed.

(** X13: in the parameters recorded for an experiment, the entries of
    [params_info] win: the model name is recorded under "model" unless
    [params_info] has its own "model", and every other key is recorded as
    [params_info] has it. *)
Theorem experiment_params_override self (params_info : gmap string string)
    (key : string) :
  dict_merge (get_experiment_params self) params_info !! key
  = match params_info !! key with
    | Some v => Some v
    | None => if decide (key = "model")
              then Some (model_base_name (model self)) else None
    end.
Proof.
  unfold dict_merge, get_experiment_params. rewrite lookup_union.
  destruct (params_info !! key) as [v|] eqn:Hkey; simpl.
  - by destruct ({[ "model" := model_base_name (model self) ]} !! key).
  - destruct (decide (key = "model")) as [->|Hne].
    + by rewrite lookup_singleton_eq.
    + by rewrite lookup_singleton_ne.
Qed.

(** X14: [ABSDataPostprocessor.__init__] touches nothing without a save
    directory (None or the empty string); a directory that exists is only
    looked up; no OSError leaves it; and when it returns, the instance
    holds the directory it was given. *)
Theorem ABSDataPostprocessor_init_edge_cases :
  (∀ s, ABSDataPostprocessor_init lib None s = (s, Ok {| save_dir := None |}))
  ∧ (∀ s, ABSDataPostprocessor_init lib (Some "") s
          = (s, Ok {| save_dir := Some "" |}))
  ∧ (∀ dir s w,
       dir ≠ "" → os_path_exists lib dir (outside s) = (w, Ok true) →
       ABSDataPostprocessor_init lib (Some dir) s
       = (mkWorld w (trace s ++ [EvPathExists dir (Ok true)]),
          Ok {| save_dir := Some dir |}))
  ∧ (∀ dir s s' e,
       ABSDataPostprocessor_init lib dir s = (s', Raise e) → e ≠ OSError)
  ∧ (∀ dir s s' instance,
       ABSDataPostprocessor_init lib dir s = (s', Ok instance) →
       save_dir instance = dir).
Proof.
  split; [done|]. split; [done|]. split; [|split].
  - intros dir s w Hdir Hexists. unfold ABSDataPostprocessor_init. simpl.
    rewrite bool_decide_eq_false_2 by done. simpl.
    unfold _init_dir, try_except, mbind, Py_bind, call. simpl.
    by rewrite Hexists.
  - intros dir s s' e. unfold ABSDataPostprocessor_init.
    destruct (truthy dir).
    + unfold mbind at 1, Py_bind at 1.
      destruct (_init_dir lib {| save_dir := dir |} s) as [s1 [[]|e1]] eqn:Hdir;
        [done|].
      intros [= <- <-]. by eapply _init_dir_never_OSError.
    + done.
  - intros dir s s' instance. unfold ABSDataPostprocessor_init.
    destruct (truthy dir).
    + unfold mbind at 1, Py_bind at 1.
      destruct (_init_dir lib {| save_dir := dir |} s) as [s1 [[]|e1]];
        [|done].
      by intros [= _ <-].
    + by intros [= _ <-].
Qed.

(** X15: when the feature cache answers, the data is not fetched,
    preprocessed or turned into features, however the rest of the run goes,
    and what [process_data] returns is the cached frame. *)
Theorem process_data_uses_the_cache self (dry_run : bool) s w :
  _load_features (feature_generator self) (outside s) = (w, Ok true) →
  ∃ t,
    trace (process_data self dry_run s).1 = trace s ++ t
    ∧ Forall (λ ev, is_preparation_event ev = false) t
    ∧ ∀ data, (process_data self dry_run s).2 = Ok data →
              EvGetFeatures (Ok data) ∈ t.
Proof.
  intros Hload. unfold process_data, mbind, Py_bind, call. simpl.
  rewrite Hload. simpl.
  destruct (get_df _ _) as [w1 [cached|e1]]; simpl;
    [|eexists [_; _]; rewrite <- !app_assoc;
      split; [done|split; [by repeat constructor|done]]].
  destruct (del_df _ _) as [w2 [[]|e2]]; simpl;
    [|eexists [_; _; _]; rewrite <- !app_assoc;
      split; [done|split; [by repeat constructor|done]]].
  destruct (cat_cols _ _) as [w3 [cols|e3]]; simpl;
    [|eexists [_; _; _; _]; rewrite <- !app_assoc;
      split; [done|split; [by repeat constructor|done]]].
  destruct (set_categorical_columns _ _ _) as [w4 [[]|e4]]; simpl;
    eexists [_; _; _; _; _]; rewrite <- !app_assoc;
    (split; [done|split; [by repeat constructor|]]); [|done].
  intros data [= <-]. right. by left.
Qed.
End more_pipeline_properties.

(** ** Chains of processors *)

Section more_init_preprocessor_properties.
Context {V : Type} {S : Type}.
Implicit Types (df : DataFrame V) (s : S).
Implicit Types (ps qs : list (DataFrame V → Py S (DataFrame V))).

(** X16: a chain of processors followed by another is the chain of all of
    them; and a chain stops at the first processor that raises: whatever
    comes after it is not run, and its exception is the one of the chain. *)
Theorem init_preprocessor_chains ps qs df s :
  init_preprocessor (ps ++ qs) df s
  = (init_preprocessor ps df ≫= init_preprocessor qs) s
  ∧ ∀ s' e, init_preprocessor ps df s = (s', Raise e) →
            init_preprocessor (ps ++ qs) df s = (s', Raise e).
Proof.
  assert (∀ df s, init_preprocessor (ps ++ qs) df s
                  = (init_preprocessor ps df ≫= init_preprocessor qs) s)
    as Hchain.
  { unfold init_preprocessor. clear df s.
    induction ps as [|p ps IH]; intros df s; simpl; [done|].
    rewrite Py_bind_assoc. by apply Py_bind_ext. }
  split; [apply Hchain|].
  intros s' e Hraise. rewrite Hchain. by erewrite Py_bind_Raise.
Qed.
End more_init_preprocessor_properties.

(** ** More on the polling loop *)

(** X17: the elapsed time that is printed wraps around every day: it is
    always between 1 and 1440 minutes, because only the seconds within the
    day of the time difference are counted; within the first day after the
    submission it is the number of started minutes. *)
Theorem elapsed_minutes_wraps_daily (now submit_time : Z) :
  (1 ≤ elapsed_minutes now submit_time ≤ 1440)%Z
  ∧ elapsed_minutes (now + 86400000000) submit_time
    = elapsed_minutes now submit_time
  ∧ ((0 ≤ now - submit_time < 86400000000)%Z →
     elapsed_minutes now submit_time
     = ((now - submit_time) / 60000000 + 1)%Z).
Proof.
  unfold elapsed_minutes, timedelta_seconds.
  pose proof (Z.mod_pos_bound (now - submit_time) 86400000000 ltac:(lia))
    as Hmod.
  split; [|split].
  - assert (0 ≤ (now - submit_time) `mod` 86400000000 / 1000000 < 86400)%Z
      as Hsec.
    { split; [apply Z.div_pos; lia|]. apply Z.div_lt_upper_bound; lia. }
    assert (0 ≤ (now - submit_time) `mod` 86400000000 / 1000000 / 60 < 1440)%Z.
    { split; [apply Z.div_pos; lia|]. apply Z.div_lt_upper_bound; lia. }
    lia.
  - replace (now + 86400000000 - submit_time)%Z
      with (now - submit_time + 1 * 86400000000)%Z by lia.
    by rewrite Z.mod_add by lia.
  - intros Hday. rewrite Z.mod_small by lia.
    rewrite Z.div_div by lia. done.
Qed.

(** X18: which entry the loop reads.  The first listed submission whose
    reference prints as [latest_ref] is selected, whatever was selected
    before; when none matches, the last one listed is; and over an empty
    list the entry of the round before stays. *)
Theorem find_result_first_match (latest_ref : string)
    (result : option Submission) :
  (∀ before r after,
     Forall (λ x, pretty (ref x) ≠ latest_ref) before →
     pretty (ref r) = latest_ref →
     find_result latest_ref result (before ++ r :: after) = Some r)
  ∧ (∀ subs r,
       Forall (λ x, pretty (ref x) ≠ latest_ref) subs →
       last subs = Some r →
       find_result latest_ref result subs = Some r)
  ∧ find_result latest_ref result [] = result.
Proof.
  split; [|split; [|done]].
  - intros before r after Hbefore Hr. revert result.
    induction Hbefore as [|x before Hx _ IH]; intros result; simpl.
    + by rewrite decide_True.
    + rewrite decide_False by done. apply IH.
  - intros subs r Hsubs. revert result.
    induction Hsubs as [|x subs Hx _ IH]; intros result Hlast; [done|].
    simpl. rewrite decide_False by done.
    destruct subs as [|y subs]; [by injection Hlast as ->|].
    by apply IH.
Qed.

Section more_polling_properties.
Context {W : Type}.
Variable lib : PollLibraries W.
Implicit Types (s : World W PollEvent) (api : SubmissionApi W).

(** X19: empty answers of the API.  With no submission at all, the function
    raises IndexError before the loop, right after the first query.  An
    empty list in the first round of the loop raises UnboundLocalError (no
    entry was ever selected); in a later round the entry of the round
    before is read again. *)
Theorem watch_submit_time_on_empty_lists :
  (∀ fuel s w1 api w2 w3,
     api_new W lib (outside s) = (w1, Ok api) →
     api_authenticate W api w1 = (w2, Ok ()) →
     competition_submissions W api COMPETITION w2 = (w3, Ok []) →
     watch_submit_time lib fuel s
     = (mkWorld w3 (trace s ++ [EvApiNew (Ok ()); EvApiAuthenticate (Ok ());
                                EvCompetitionSubmissions COMPETITION (Ok [])]),
        Raise IndexError))
  ∧ (∀ fuel api latest_ref submit_time s w,
       competition_submissions W api COMPETITION (outside s) = (w, Ok []) →
       watch_loop lib (S fuel) api latest_ref submit_time "" None s
       = (mkWorld w (trace s ++ [EvCompetitionSubmissions COMPETITION (Ok [])]),
          Raise UnboundLocalError))
  ∧ (∀ api latest_ref submit_time r s w s' st result',
       competition_submissions W api COMPETITION (outside s) = (w, Ok []) →
       poll lib api latest_ref submit_time (Some r) s
       = (s', Ok (st, result')) →
       st = status r ∧ result' = Some r).
Proof.
  split; [|split].
  - intros fuel s w1 api w2 w3 Hnew Hauth Hsubs.
    unfold watch_submit_time, latest_submission, mbind, Py_bind, call.
    rewrite Hnew. simpl. rewrite Hauth. simpl. rewrite Hsubs. simpl.
    by rewrite <- !app_assoc.
  - intros fuel api latest_ref submit_time s w Hsubs. simpl.
    unfold poll, mbind, Py_bind, call. by rewrite Hsubs.
  - intros api latest_ref submit_time r s w s' st result' Hsubs Hpoll.
    unfold poll in Hpoll.
    erewrite Py_bind_Ok in Hpoll by (unfold call; by rewrite Hsubs).
    simpl in Hpoll.
    apply bind_Ok_inv in Hpoll as (s1 & now & _ & Hpoll).
    apply bind_Ok_inv in Hpoll as (s2 & [] & _ & Hpoll).
    by apply ret_Ok_inv in Hpoll as [_ [= -> ->]].
Qed.
End more_polling_properties.

(** ** The further properties on the toy competition *)

Lemma k_fold_frames_are_complementary_witness :
  ∃ folds,
    k_fold reverse_shuffle toy_splitter toy_frame = Ok folds
    ∧ Forall (λ '(train, valid), len train + len valid = 5) folds.
Proof.
  assert (∃ folds, k_fold reverse_shuffle toy_splitter toy_frame = Ok folds)
    as [folds Hrun].
  { eexists. vm_compute. reflexivity. }
  exists folds. split; [done|].
  eapply Forall_impl;
    [exact (k_fold_frames_are_complementary reverse_shuffle toy_splitter
              toy_frame folds Hrun)|].
  intros [train valid] (mask & _ & _ & _ & _ & _ & _ & _ & Hlen). exact Hlen.
Defined.

Lemma k_fold_validation_sizes_witness :
  (2 ≤ n_splits toy_splitter ≤ Z.of_nat (len toy_frame))%Z
  ∧ ∃ folds,
      k_fold reverse_shuffle toy_splitter toy_frame = Ok folds
      ∧ map (λ fold, len fold.2) folds = [3; 2].
Proof.
  split; [done|].
  destruct (k_fold_validation_sizes reverse_shuffle
              reverse_shuffle_permutation toy_splitter toy_frame)
    as (folds & Hrun & Hsizes & _); [done|].
  by exists folds.
Defined.


Lemma group_k_fold_holds_out_each_group_once_witness :
  getitem toy_frame "group" = Ok [10; 20; 10; 30; 20]%Z
  ∧ (2 ≤ n_splits toy_splitter
     ≤ Z.of_nat (length (unique [10; 20; 10; 30; 20]%Z)))%Z
  ∧ ∃ folds,
      group_k_fold reverse_shuffle toy_splitter toy_frame "group" = Ok folds
      ∧ Forall (λ '(train, valid), ∃ mask : list bool,
                  length mask = len toy_frame
                  ∧ valid = getitem_mask toy_frame mask
                  ∧ train = getitem_mask toy_frame (map negb mask)
                  ∧ len train + len valid = len toy_frame) folds.
Proof.
  split; [done|]. split; [done|].
  destruct (group_k_fold_holds_out_each_group_once reverse_shuffle
              reverse_shuffle_permutation toy_splitter toy_frame "group"
              [10; 20; 10; 30; 20]%Z)
    as (folds & Hrun & Hfolds & _); [done..|].
  by exists folds.
Defined.

Lemma get_submit_data_keeps_shape_witness :
  estimate toy_model toy_frame (outside toy_world) = ((), Ok toy_predictions)
  ∧ well_formed toy_predictions
  ∧ ∃ sub,
      (get_submit_data (toy_submitter false) toy_frame toy_world).2 = Ok sub
      ∧ well_formed sub ∧ len sub = 2.
Proof.
  assert (well_formed toy_predictions) as Hwf by (by repeat constructor).
  split; [done|]. split; [done|].
  destruct (get_submit_data_keeps_shape (toy_submitter false) toy_frame
              toy_world () toy_predictions eq_refl Hwf)
    as (sub & Hrun & Hwf' & Hlen & _).
  by exists sub.
Defined.



Lemma make_submission_submits_only_for_real_witness :
  ∃ t,
    trace (make_submission toy_libraries (toy_submitter false) ∅ false true
             true false toy_world).1
    = trace toy_world ++ t
    ∧ Forall (λ ev, is_submission_event ev = false) t.
Proof.
  apply (make_submission_submits_only_for_real toy_libraries
           (toy_submitter false) ∅ false true true false).
  by left.
Defined.

Lemma make_submission_needs_validate_submit_data_witness :
  ∃ e, (make_submission toy_libraries unvalidated_submitter ∅ false true
          false false toy_world).2
       = Raise e.
Proof.
  by apply (make_submission_needs_validate_submit_data toy_libraries
              unvalidated_submitter ∅ false true false false eq_refl).
Defined.


Lemma submitter_built_offline_cannot_submit_witness :
  cls_competition_name toy_class ≠ ""
  ∧ cls_experiment_name toy_class ≠ ""
  ∧ KaggleApi_new offline_libraries (outside toy_world) = ((), Raise OSError)
  ∧ ∃ self,
      (ABSSubmitter_init offline_libraries toy_class toy_fetcher
         (λ df, returns df) (toy_features false) toy_data_splitter toy_model
         "first try" toy_world).2
      = Ok self
      ∧ api self = None.
Proof.
  split; [done|]. split; [done|]. split; [done|].
  destruct (submitter_built_offline_cannot_submit offline_libraries toy_class
              toy_fetcher (λ df, returns df) (toy_features false)
              toy_data_splitter toy_model "first try" toy_world ())
    as (self & Hinit & Hapi & _); [done..|].
  exists self. by rewrite Hinit.
Defined.

Lemma ABSDataPostprocessor_init_edge_cases_witness :
  ∃ s' instance,
    ABSDataPostprocessor_init toy_libraries (Some "./artifact/") toy_world
    = (s', Ok instance)
    ∧ save_dir instance = Some "./artifact/".
Proof.
  assert (∃ s' instance,
            ABSDataPostprocessor_init toy_libraries (Some "./artifact/")
              toy_world = (s', Ok instance)) as (s' & instance & Hrun).
  { eexists _, _. vm_compute. reflexivity. }
  exists s', instance. split; [done|].
  destruct (ABSDataPostprocessor_init_edge_cases toy_libraries)
    as (_ & _ & _ & _ & Hdir).
  by eapply Hdir.
Defined.

Lemma process_data_uses_the_cache_witness :
  _load_features (feature_generator (toy_submitter true)) (outside toy_world)
  = ((), Ok true)
  ∧ ∃ t,
      trace (process_data (toy_submitter true) false toy_world).1
      = trace toy_world ++ t
      ∧ Forall (λ ev, is_preparation_event ev = false) t.
Proof.
  split; [done|].
  destruct (process_data_uses_the_cache (toy_submitter true) false toy_world
              () eq_refl) as (t & Htrace & Hprep & _).
  by exists t.
Defined.

Lemma init_preprocessor_chains_witness :
  init_preprocessor [ABSCallable_call ABSDataPreprocessor_base] toy_frame ()
  = ((), Raise NotImplementedError)
  ∧ init_preprocessor
      ([ABSCallable_call ABSDataPreprocessor_base] ++ [λ df, returns df])
      toy_frame ()
    = ((), Raise NotImplementedError).
Proof.
  split; [done|].
  by apply (proj2 (init_preprocessor_chains
                     [ABSCallable_call ABSDataPreprocessor_base]
                     [λ df, returns df] toy_frame ())).
Defined.

Lemma elapsed_minutes_wraps_daily_witness :
  (0 ≤ 90000000 - 0 < 86400000000)%Z
  ∧ elapsed_minutes 90000000 0 = 2%Z.
Proof.
  split; [done|].
  by rewrite (proj2 (proj2 (elapsed_minutes_wraps_daily 90000000 0))).
Defined.

Lemma find_result_first_match_witness :
  Forall (λ x, pretty (ref x) ≠ "7") [old_submission]
  ∧ pretty (ref (toy_submission "pending")) = "7"
  ∧ find_result "7" None [old_submission; toy_submission "pending"]
    = Some (toy_submission "pending").
Proof.
  assert (Forall (λ x, pretty (ref x) ≠ "7") [old_submission]) as Hold.
  { repeat constructor. by vm_compute. }
  split; [done|]. split; [by vm_compute|].
  apply (proj1 (find_result_first_match "7" None) [old_submission]
               (toy_submission "pending") []); [done|by vm_compute].
Defined.

Lemma watch_submit_time_on_empty_lists_witness :
  competition_submissions nat empty_remote COMPETITION 0 = (1, Ok [])
  ∧ (watch_submit_time empty_poll_libraries 3 toy_poll_world).2
    = Raise IndexError.
Proof.
  split; [done|].
  by rewrite (proj1 (watch_submit_time_on_empty_lists empty_poll_libraries)
                3 toy_poll_world 0 empty_remote 0 1 eq_refl eq_refl eq_refl).
Defined.

Lemma k_fold_yields_or_raises_ValueError_witness :
  ¬ (2 ≤ 9 ≤ Z.of_nat (len toy_frame))%Z
  ∧ k_fold reverse_shuffle {| n_splits := 9 |} toy_frame = Raise ValueError.
Proof.
  destruct (k_fold_yields_or_raises_ValueError reverse_shuffle
              {| n_splits := 9 |} toy_frame) as [[Hk _]|Hraise]; [|done].
  unfold len, toy_frame in Hk. simpl in Hk. lia.
Defined.
